(** * The document upload protocol of the Superpowered SDK

    A shallow embedding of [src/documents.ts] ([requestSignedFileUrl],
    [uploadDocument]) and of the part of [src/client.ts] that builds the
    authenticated transport, together with the pieces of Node's [crypto],
    of [Buffer] and of axios that these functions call. *)

From Stdlib Require Import ZArith Strings.String Strings.Ascii Strings.Byte Lia.
From stdpp Require Import gmap strings list pretty.

Local Open Scope Z_scope.
#[local] Set Warnings "-register-all".

(** ** Node's [crypto] and [Buffer]: MD5 (RFC 1321) and base64 (RFC 4648) *)

Module Crypto.

(** A [Buffer]'s contents. *)
Abbreviation bytes := (list byte).

Definition Z_of_byte (b : byte) : Z := Z.of_N (Byte.to_N b).

Definition byte_of_Z (z : Z) : byte :=
  match Byte.of_N (Z.to_N (z mod 256)) with
  | Some b => b
  | None => x00
  end.

Definition wrap32 (x : Z) : Z := x mod 2 ^ 32.

Definition rotl32 (x c : Z) : Z :=
  wrap32 (Z.lor (Z.shiftl x c) (Z.shiftr x (32 - c))).

Definition not32 (x : Z) : Z := Z.lxor x 0xffffffff.

(** [K i = floor (2^32 * |sin (i + 1)|)]. *)
Definition K : list Z :=
  [ 0xd76aa478; 0xe8c7b756; 0x242070db; 0xc1bdceee;
    0xf57c0faf; 0x4787c62a; 0xa8304613; 0xfd469501;
    0x698098d8; 0x8b44f7af; 0xffff5bb1; 0x895cd7be;
    0x6b901122; 0xfd987193; 0xa679438e; 0x49b40821;
    0xf61e2562; 0xc040b340; 0x265e5a51; 0xe9b6c7aa;
    0xd62f105d; 0x02441453; 0xd8a1e681; 0xe7d3fbc8;
    0x21e1cde6; 0xc33707d6; 0xf4d50d87; 0x455a14ed;
    0xa9e3e905; 0xfcefa3f8; 0x676f02d9; 0x8d2a4c8a;
    0xfffa3942; 0x8771f681; 0x6d9d6122; 0xfde5380c;
    0xa4beea44; 0x4bdecfa9; 0xf6bb4b60; 0xbebfbc70;
    0x289b7ec6; 0xeaa127fa; 0xd4ef3085; 0x04881d05;
    0xd9d4d039; 0xe6db99e5; 0x1fa27cf8; 0xc4ac5665;
    0xf4292244; 0x432aff97; 0xab9423a7; 0xfc93a039;
    0x655b59c3; 0x8f0ccc92; 0xffeff47d; 0x85845dd1;
    0x6fa87e4f; 0xfe2ce6e0; 0xa3014314; 0x4e0811a1;
    0xf7537e82; 0xbd3af235; 0x2ad7d2bb; 0xeb86d391 ].

(** Per-round left rotations. *)
Definition S : list Z :=
  [ 7; 12; 17; 22; 7; 12; 17; 22; 7; 12; 17; 22; 7; 12; 17; 22;
    5; 9; 14; 20; 5; 9; 14; 20; 5; 9; 14; 20; 5; 9; 14; 20;
    4; 11; 16; 23; 4; 11; 16; 23; 4; 11; 16; 23; 4; 11; 16; 23;
    6; 10; 15; 21; 6; 10; 15; 21; 6; 10; 15; 21; 6; 10; 15; 21 ].

Record md5_state := MkState { sA : Z; sB : Z; sC : Z; sD : Z }.

Definition md5_init : md5_state :=
  MkState 0x67452301 0xefcdab89 0x98badcfe 0x10325476.

(** One of the 64 operations on a block [M] of sixteen words. *)
Definition md5_round (M : list Z) (st : md5_state) (i : nat) : md5_state :=
  let '(MkState a b c d) := st in
  let '(f, g) :=
    if (i <? 16)%nat then (Z.lor (Z.land b c) (Z.land (not32 b) d), i)
    else if (i <? 32)%nat then
      (Z.lor (Z.land d b) (Z.land (not32 d) c), ((5 * i + 1) mod 16)%nat)
    else if (i <? 48)%nat then
      (Z.lxor (Z.lxor b c) d, ((3 * i + 5) mod 16)%nat)
    else (Z.lxor c (Z.lor b (not32 d)), ((7 * i) mod 16)%nat) in
  let f' := wrap32 (f + a + nth i K 0 + nth g M 0) in
  MkState d (wrap32 (b + rotl32 f' (nth i S 0))) b c.

(** Four bytes, least significant first, to a word. *)
Definition word_le (b0 b1 b2 b3 : byte) : Z :=
  Z_of_byte b0 + Z.shiftl (Z_of_byte b1) 8
  + Z.shiftl (Z_of_byte b2) 16 + Z.shiftl (Z_of_byte b3) 24.

Fixpoint words_le (bs : bytes) : list Z :=
  match bs with
  | b0 :: b1 :: b2 :: b3 :: rest => word_le b0 b1 b2 b3 :: words_le rest
  | _ => []
  end.

Definition bytes_le (n : nat) (x : Z) : bytes :=
  map (fun k => byte_of_Z (Z.shiftr x (8 * Z.of_nat k))) (seq 0 n).

Definition md5_block (st : md5_state) (block : bytes) : md5_state :=
  let M := words_le block in
  let '(MkState a b c d) := foldl (md5_round M) st (seq 0 64) in
  MkState (wrap32 (sA st + a)) (wrap32 (sB st + b))
          (wrap32 (sC st + c)) (wrap32 (sD st + d)).

(** The message followed by a one bit, zeros up to 56 modulo 64 bytes,
    and the length in bits as a 64-bit little-endian integer. *)
Definition md5_pad (msg : bytes) : bytes :=
  let len := Z.of_nat (length msg) in
  let zeros := Z.to_nat ((55 - len) mod 64) in
  msg ++ x80 :: repeat x00 zeros ++ bytes_le 8 ((8 * len) mod 2 ^ 64).

Fixpoint md5_blocks (n : nat) (st : md5_state) (bs : bytes) : md5_state :=
  match n with
  | O => st
  | Datatypes.S n' => md5_blocks n' (md5_block st (take 64 bs)) (drop 64 bs)
  end.

Definition md5 (msg : bytes) : bytes :=
  let padded := md5_pad msg in
  let '(MkState a b c d) :=
    md5_blocks (length padded / 64)%nat md5_init padded in
  bytes_le 4 a ++ bytes_le 4 b ++ bytes_le 4 c ++ bytes_le 4 d.

Definition base64_alphabet : string :=
  "ABCDEFGHIJKLMNOPQRSTUVWXYZabcdefghijklmnopqrstuvwxyz0123456789+/".

Definition base64_char (i : Z) : ascii :=
  match String.get (Z.to_nat i) base64_alphabet with
  | Some c => c
  | None => "="%char
  end.

Fixpoint base64_encode (bs : bytes) : string :=
  match bs with
  | [] => EmptyString
  | [a] =>
      let a := Z_of_byte a in
      String (base64_char (Z.shiftr a 2))
        (String (base64_char (Z.shiftl (Z.land a 3) 4)) "==")
  | [a; b] =>
      let a := Z_of_byte a in
      let b := Z_of_byte b in
      String (base64_char (Z.shiftr a 2))
        (String (base64_char (Z.lor (Z.shiftl (Z.land a 3) 4) (Z.shiftr b 4)))
           (String (base64_char (Z.shiftl (Z.land b 15) 2)) "="))
  | a :: b :: c :: rest =>
      let a := Z_of_byte a in
      let b := Z_of_byte b in
      let c := Z_of_byte c in
      String (base64_char (Z.shiftr a 2))
        (String (base64_char (Z.lor (Z.shiftl (Z.land a 3) 4) (Z.shiftr b 4)))
           (String (base64_char (Z.lor (Z.shiftl (Z.land b 15) 2) (Z.shiftr c 6)))
              (String (base64_char (Z.land c 63)) (base64_encode rest))))
  end.

Definition hex_digit (i : Z) : ascii :=
  match String.get (Z.to_nat i) "0123456789abcdef" with
  | Some c => c
  | None => "?"%char
  end.

Fixpoint hex_encode (bs : bytes) : string :=
  match bs with
  | [] => EmptyString
  | b :: rest =>
      String (hex_digit (Z.shiftr (Z_of_byte b) 4))
        (String (hex_digit (Z.land (Z_of_byte b) 15)) (hex_encode rest))
  end.

(** [Buffer.from(s)]: the bytes of a string. *)
Definition Buffer_from (s : string) : bytes := list_byte_of_string s.

(** The [Hash] object of [crypto.createHash]: the algorithm and the data
    fed to it so far. *)
Inductive algorithm := MD5.
Inductive encoding := Base64 | Hex.

Record Hash := MkHash { hash_algorithm : algorithm; hash_data : bytes }.

Definition createHash (alg : algorithm) : Hash := MkHash alg [].

Definition update (h : Hash) (data : bytes) : Hash :=
  MkHash (hash_algorithm h) (hash_data h ++ data).

Definition digest (h : Hash) (enc : encoding) : string :=
  let raw := match hash_algorithm h with MD5 => md5 (hash_data h) end in
  match enc with
  | Base64 => base64_encode raw
  | Hex => hex_encode raw
  end.

End Crypto.


(** ** JavaScript values *)

Module Js.

(** Values as [JSON.parse] and object literals build them. Only the tag of a
    number is ever inspected here, so numbers are kept as integers. *)
Inductive JsValue :=
| JUndefined
| JNull
| JBool (b : bool)
| JNum (n : Z)
| JStr (s : string)
| JArr (xs : list JsValue)
| JObj (props : gmap string JsValue).

(** [v === undefined || v === null]. *)
Definition nullish (v : JsValue) : bool :=
  match v with
  | JUndefined | JNull => true
  | _ => false
  end.

(** [v.key] on a value that is neither [undefined] nor [null], for a [key]
    that is neither [length] nor an index: an own property of an object,
    [undefined] on anything else. *)
Definition getProp (v : JsValue) (key : string) : JsValue :=
  match v with
  | JObj props => default JUndefined (props !! key)
  | _ => JUndefined
  end.

(** The truthiness an [if] or [&&] tests. *)
Definition truthy (v : JsValue) : bool :=
  match v with
  | JUndefined | JNull => false
  | JBool b => b
  | JNum n => negb (n =? 0)
  | JStr s => negb (String.eqb s "")
  | JArr _ | JObj _ => true
  end.

(** [String.prototype.includes]: [needle] occurs in [s] at some position. *)
Fixpoint includes (s needle : string) : bool :=
  String.prefix needle s
  || match s with
     | EmptyString => false
     | String _ s' => includes s' needle
     end.

(** [v === s] for a string [s]. *)
Definition is_string (s : string) (v : JsValue) : bool :=
  match v with
  | JStr s' => String.eqb s' s
  | _ => false
  end.

(** An optional TypeScript field, [undefined] when absent. *)
Definition opt_string (o : option string) : JsValue :=
  match o with
  | Some s => JStr s
  | None => JUndefined
  end.

Definition opt_bool (o : option bool) : JsValue :=
  match o with
  | Some b => JBool b
  | None => JUndefined
  end.

End Js.

(** ** axios: requests, responses, errors and the event loop's view of a call *)

Module Axios.
Import Js.

Inductive Method := GET | POST | PUT | PATCH | DELETE.

(** The payload handed to a request: a value serialised as JSON, or the
    contents of a [Buffer] sent as they are. *)
Inductive Body :=
| NoBody
| JsonBody (v : JsValue)
| BufferBody (b : Crypto.bytes).

(** The configuration axios dispatches: the instance's defaults merged
    with what the call passes. *)
Record Request := MkRequest {
  req_method : Method;
  req_baseURL : option string;
  req_url : JsValue;
  req_headers : gmap string string;
  req_data : Body
}.

Record Response := MkResponse {
  status : Z;
  data : JsValue
}.

(** What a [catch] clause can receive. *)
Inductive JsError :=
| AxiosError (message : string) (response : option Response)
| TypeError (message : string)
| Error (message : string).

(** [axios.isAxiosError(error)]. *)
Definition isAxiosError (error : JsError) : bool :=
  match error with
  | AxiosError _ _ => true
  | _ => false
  end.

(** [error.response], [None] for [undefined]. *)
Definition error_response (error : JsError) : option Response :=
  match error with
  | AxiosError _ response => response
  | _ => None
  end.

(** What the network does with a request: an HTTP response of any status,
    or no response at all (the adapter's error). *)
Inductive NetReply :=
| HttpReply (response : Response)
| NetFailure (error : JsError).

(** axios's default [validateStatus]. *)
Definition validateStatus (status : Z) : bool :=
  (200 <=? status) && (status <? 300).

(** A settled promise. *)
Inductive Settled (A : Type) :=
| Fulfilled (value : A)
| Rejected (reason : JsError).
Arguments Fulfilled {A} value.
Arguments Rejected {A} reason.

(** axios's [settle]: fulfil on a valid status, reject with an
    [AxiosError] that carries the response otherwise. *)
Definition settle (reply : NetReply) : Settled Response :=
  match reply with
  | HttpReply response =>
      if validateStatus (status response) then Fulfilled response
      else Rejected
             (AxiosError ("Request failed with status code " +:+ pretty (status response))
                         (Some response))
  | NetFailure error => Rejected error
  end.

Abbreviation Event := (Request * NetReply)%type.

(** A reference to a [Buffer] on the heap. *)
Abbreviation ref := positive.

(** The world a call runs in: the buffers of the process, the network (its
    reply to a request may depend on everything exchanged so far) and the
    exchanges so far, oldest first. *)
Record World := MkWorld {
  heap : gmap ref Crypto.bytes;
  network : list Event -> Request -> NetReply;
  log : list Event
}.

(** An [async] computation: it runs in a world, and settles. *)
Definition Async (A : Type) : Type := World -> World * Settled A.

Definition resolve {A} (a : A) : Async A := fun w => (w, Fulfilled a).

Definition throw {A} (e : JsError) : Async A := fun w => (w, Rejected e).

Definition bind {A B} (m : Async A) (k : A -> Async B) : Async B :=
  fun w =>
    match m w with
    | (w', Fulfilled a) => k a w'
    | (w', Rejected e) => (w', Rejected e)
    end.

(** [try { body } catch (error) { handler }]. *)
Definition try_catch {A} (body : Async A) (handler : JsError -> Async A) : Async A :=
  fun w =>
    match body w with
    | (w', Fulfilled a) => (w', Fulfilled a)
    | (w', Rejected e) => handler e w'
    end.

(** A pure evaluation step that may throw. *)
Definition lift {A} (r : Settled A) : Async A := fun w => (w, r).

(** Reading the contents of a [Buffer]; a value that is no buffer is
    refused by the functions that take one. *)
Definition read_buffer (b : ref) : Async Crypto.bytes :=
  fun w =>
    match heap w !! b with
    | Some contents => (w, Fulfilled contents)
    | None =>
        (w, Rejected (TypeError "The data argument must be of type string or an instance of Buffer"))
    end.

(** One exchange with the network. *)
Definition dispatch (req : Request) : Async Response :=
  fun w =>
    let reply := network w (log w) req in
    (MkWorld (heap w) (network w) (log w ++ [(req, reply)]), settle reply).

Record AxiosInstance := MkAxiosInstance {
  defaults_baseURL : option string;
  defaults_headers : gmap string string
}.

(** The instance the package exports as [axios]. *)
Definition axios : AxiosInstance :=
  MkAxiosInstance None {[ "Accept" := "application/json, text/plain, */*" ]}.

(** [axios.create(config)]: [config] over the library's defaults. *)
Definition create (baseURL : option string) (headers : gmap string string) : AxiosInstance :=
  MkAxiosInstance baseURL (headers ∪ defaults_headers axios).

Definition request (inst : AxiosInstance) (method : Method) (url : JsValue)
    (body : Body) (headers : gmap string string) : Async Response :=
  dispatch (MkRequest method (defaults_baseURL inst) url
                      (headers ∪ defaults_headers inst) body).

(** [instance.post(url, data)]. *)
Definition post (inst : AxiosInstance) (url : string) (data : JsValue) : Async Response :=
  request inst POST (JStr url) (JsonBody data) ∅.

(** [instance.put(url, buffer, { headers })]. *)
Definition put (inst : AxiosInstance) (url : JsValue) (buffer : ref)
    (headers : gmap string string) : Async Response :=
  bind (read_buffer buffer) (fun contents =>
  request inst PUT url (BufferBody contents) headers).

End Axios.

Notation "x <- m ;; k" := (Axios.bind m (fun x => k))
  (at level 100, m at next level, right associativity).

(** ** [src/documents.ts] *)

Module Documents.
Import Js Axios.

(** [class DocumentAPI { constructor(private axiosInstance) {} }] *)
Record DocumentAPI := MkDocumentAPI { axiosInstance : AxiosInstance }.

(** The [options] parameter of [uploadDocument]. *)
Record UploadOptions := MkUploadOptions {
  linkToSource : option string;
  suppId : option string;
  description : option string;
  isUpdate : option bool;
  chunkHeader : option string;
  autoContext : option bool
}.

(** [v.key], which throws on [undefined] and [null]. *)
Definition member (v : JsValue) (key : string) : Settled JsValue :=
  if nullish v then
    Rejected (TypeError ("Cannot read properties of undefined (reading '" +:+ key +:+ "')"))
  else Fulfilled (getProp v key).

(** [v?.] followed by the rest of the chain [k]. *)
Definition opt_chain (v : JsValue) (k : JsValue -> Settled JsValue) : Settled JsValue :=
  if nullish v then Fulfilled JUndefined else k v.

(** [v.includes(needle)] for a [v] that is neither [undefined] nor [null]:
    the method of strings and arrays, a [TypeError] where there is none. *)
Definition call_includes (v : JsValue) (needle : string) : Settled JsValue :=
  match v with
  | JStr s => Fulfilled (JBool (includes s needle))
  | JArr xs => Fulfilled (JBool (existsb (is_string needle) xs))
  | _ => Rejected (TypeError "error.response?.data?.error?.includes is not a function")
  end.

Definition conflict_signature : string := "already exists in knowledge base".

(** [error.response?.data?.error?.includes("already exists in knowledge base")] *)
Definition error_includes_signature (error : JsError) : Settled JsValue :=
  match error_response error with
  | None => Fulfilled JUndefined
  | Some response =>
      opt_chain (data response) (fun d =>
      opt_chain (getProp d "error") (fun e =>
      call_includes e conflict_signature))
  end.

(** The condition of the [if] in the [catch] clause of [uploadDocument]. *)
Definition is_conflict (error : JsError) : Settled bool :=
  if isAxiosError error then
    match error_includes_signature error with
    | Fulfilled v => Fulfilled (truthy v)
    | Rejected e => Rejected e
    end
  else Fulfilled false.

(** [error.response.data] *)
Definition error_response_data (error : JsError) : Settled JsValue :=
  match error_response error with
  | Some response => Fulfilled (data response)
  | None => Rejected (TypeError "Cannot read properties of undefined (reading 'data')")
  end.

Definition requestSignedFileUrl (this : DocumentAPI) (knowledgeBaseId : string)
    (data : JsValue) : Async JsValue :=
  response <-
    post (axiosInstance this)
         ("/knowledge_bases/" +:+ knowledgeBaseId +:+ "/documents/request_signed_file_url")
         data ;;
  resolve (Axios.data response).

Definition uploadDocument (this : DocumentAPI) (knowledgeBaseId : string)
    (fileBuffer : ref) (fileName : string) (options : option UploadOptions)
    : Async (gmap string JsValue) :=
  contents <- read_buffer fileBuffer ;;
  let md5Hash :=
    Crypto.digest (Crypto.update (Crypto.createHash Crypto.MD5) contents) Crypto.Base64 in
  signedUrlResponse <-
    requestSignedFileUrl this knowledgeBaseId
      (JObj {[ "filename" := JStr fileName;
               "encoded_md5" := JStr md5Hash;
               "method" := JStr "PUT";
               "link_to_source" := opt_string (options ≫= linkToSource);
               "supp_id" := opt_string (options ≫= suppId);
               "description" := opt_string (options ≫= description);
               "is_update" := opt_bool (options ≫= isUpdate);
               "chunk_header" := opt_string (options ≫= chunkHeader);
               "auto_context" := opt_bool (options ≫= autoContext) ]}) ;;
  signedUrl <- lift (member signedUrlResponse "temporary_url") ;;
  try_catch
    (res <-
       put axios signedUrl fileBuffer
           {[ "Content-MD5" := md5Hash;
              "Content-Type" := "application/octet-stream" ]} ;;
     resolve {[ "success" := JBool (status res =? 200) ]})
    (fun error =>
       conflict <- lift (is_conflict error) ;;
       if (conflict : bool) then
         body <- lift (error_response_data error) ;;
         existing_document_id <- lift (member body "existing_document_id") ;;
         message <- lift (member body "error") ;;
         resolve {[ "success" := JBool false;
                    "existingDocumentId" := existing_document_id;
                    "errorMessage" := message ]}
       else throw error).

End Documents.

(** ** [src/knowledgeBases.ts], [src/chat.ts]: the transport they are given *)

Module KnowledgeBases.
Record KnowledgeBaseAPI := MkKnowledgeBaseAPI { axiosInstance : Axios.AxiosInstance }.
End KnowledgeBases.

Module Chat.
Record ChatAPI := MkChatAPI { axiosInstance : Axios.AxiosInstance }.
End Chat.

(** ** [src/client.ts] *)

Module Client.
Import Axios.

Record SuperpoweredApiClient := MkClient {
  axiosInstance : AxiosInstance;
  knowledgeBase : KnowledgeBases.KnowledgeBaseAPI;
  document : Documents.DocumentAPI;
  chat : Chat.ChatAPI
}.

(** [Buffer.from(s).toString("base64")] *)
Definition to_base64 (s : string) : string :=
  Crypto.base64_encode (Crypto.Buffer_from s).

(** The constructor; [baseURL] is [None] when the caller leaves it out. *)
Definition new (username password : string) (baseURL : option string)
    : SuperpoweredApiClient :=
  let baseURL := default "https://api.superpowered.ai/v1" baseURL in
  let axiosInstance :=
    create (Some baseURL)
      {[ "Authorization" := "Basic " +:+ to_base64 (username +:+ ":" +:+ password);
         "Accept" := "application/json";
         "Content-Type" := "application/json" ]} in
  MkClient axiosInstance
           (KnowledgeBases.MkKnowledgeBaseAPI axiosInstance)
           (Documents.MkDocumentAPI axiosInstance)
           (Chat.MkChatAPI axiosInstance).

End Client.

(** ** The vocabulary of the statements *)

Module Protocol.
Import Js Axios Documents.

#[global] Instance Method_eq_dec : EqDecision Method.
Proof. solve_decision. Defined.

(** The content digest of the specification: base64 of MD5. *)
Definition content_digest (contents : Crypto.bytes) : string :=
  Crypto.base64_encode (Crypto.md5 contents).

(** The exchanges a call added to the log. *)
Definition events_since (w w' : World) : list Event :=
  drop (length (log w)) (log w').

Definition exchanged (w : World) (ev : Event) : World :=
  MkWorld (heap w) (network w) (log w ++ [ev]).

Definition calls (m : Method) (evs : list Event) : nat :=
  length (filter (fun ev => req_method ev.1 = m) evs).

(** The request [requestSignedFileUrl] sends for [data]. *)
Definition negotiation_request (this : DocumentAPI) (knowledgeBaseId : string)
    (data : JsValue) : Request :=
  MkRequest POST (defaults_baseURL (axiosInstance this))
    (JStr ("/knowledge_bases/" +:+ knowledgeBaseId +:+ "/documents/request_signed_file_url"))
    (∅ ∪ defaults_headers (axiosInstance this))
    (JsonBody data).

(** The negotiation request of an upload of [contents]. *)
Definition signed_url_request (this : DocumentAPI) (knowledgeBaseId fileName : string)
    (options : option UploadOptions) (contents : Crypto.bytes) : Request :=
  negotiation_request this knowledgeBaseId
    (JObj {[ "filename" := JStr fileName;
             "encoded_md5" := JStr (content_digest contents);
             "method" := JStr "PUT";
             "link_to_source" := opt_string (options ≫= linkToSource);
             "supp_id" := opt_string (options ≫= suppId);
             "description" := opt_string (options ≫= description);
             "is_update" := opt_bool (options ≫= isUpdate);
             "chunk_header" := opt_string (options ≫= chunkHeader);
             "auto_context" := opt_bool (options ≫= autoContext) ]}).

(** The direct transfer of [contents] to [url]. *)
Definition transfer_request (url : JsValue) (contents : Crypto.bytes) : Request :=
  MkRequest PUT None url
    ({[ "Content-MD5" := content_digest contents;
        "Content-Type" := "application/octet-stream" ]} ∪ defaults_headers axios)
    (BufferBody contents).

(** What the [catch] clause of [uploadDocument] makes of an error. *)
Definition caught (error : JsError) : Settled (gmap string JsValue) :=
  match is_conflict error with
  | Rejected e => Rejected e
  | Fulfilled false => Rejected error
  | Fulfilled true =>
      match error_response_data error with
      | Rejected e => Rejected e
      | Fulfilled body =>
          match member body "existing_document_id", member body "error" with
          | Fulfilled id, Fulfilled message =>
              Fulfilled {[ "success" := JBool false;
                           "existingDocumentId" := id;
                           "errorMessage" := message ]}
          | Rejected e, _ | _, Rejected e => Rejected e
          end
      end
  end.

(** The paths through [uploadDocument], from a world [w] to the world and
    the settlement it ends in. *)
Inductive upload_path (this : DocumentAPI) (knowledgeBaseId : string) (fileBuffer : ref)
    (fileName : string) (options : option UploadOptions) (w : World)
    : World -> Settled (gmap string JsValue) -> Prop :=
| path_no_buffer e :
    read_buffer fileBuffer w = (w, Rejected e) ->
    upload_path this knowledgeBaseId fileBuffer fileName options w w (Rejected e)
| path_negotiation_failed contents q1 r1 e :
    heap w !! fileBuffer = Some contents ->
    q1 = signed_url_request this knowledgeBaseId fileName options contents ->
    r1 = network w (log w) q1 ->
    settle r1 = Rejected e ->
    upload_path this knowledgeBaseId fileBuffer fileName options w
      (exchanged w (q1, r1)) (Rejected e)
| path_no_grant contents q1 r1 granted e :
    heap w !! fileBuffer = Some contents ->
    q1 = signed_url_request this knowledgeBaseId fileName options contents ->
    r1 = network w (log w) q1 ->
    settle r1 = Fulfilled granted ->
    member (data granted) "temporary_url" = Rejected e ->
    upload_path this knowledgeBaseId fileBuffer fileName options w
      (exchanged w (q1, r1)) (Rejected e)
| path_transferred contents q1 r1 granted q2 r2 res :
    heap w !! fileBuffer = Some contents ->
    q1 = signed_url_request this knowledgeBaseId fileName options contents ->
    r1 = network w (log w) q1 ->
    settle r1 = Fulfilled granted ->
    nullish (data granted) = false ->
    q2 = transfer_request (getProp (data granted) "temporary_url") contents ->
    r2 = network w (log w ++ [(q1, r1)]) q2 ->
    settle r2 = Fulfilled res ->
    upload_path this knowledgeBaseId fileBuffer fileName options w
      (exchanged (exchanged w (q1, r1)) (q2, r2))
      (Fulfilled {[ "success" := JBool (status res =? 200) ]})
| path_transfer_failed contents q1 r1 granted q2 r2 error :
    heap w !! fileBuffer = Some contents ->
    q1 = signed_url_request this knowledgeBaseId fileName options contents ->
    r1 = network w (log w) q1 ->
    settle r1 = Fulfilled granted ->
    nullish (data granted) = false ->
    q2 = transfer_request (getProp (data granted) "temporary_url") contents ->
    r2 = network w (log w ++ [(q1, r1)]) q2 ->
    settle r2 = Rejected error ->
    upload_path this knowledgeBaseId fileBuffer fileName options w
      (exchanged (exchanged w (q1, r1)) (q2, r2)) (caught error).

(** The terminal states of the specification's state machine. *)
Inductive Terminal := Succeeded | ConflictDetected | Failed.

(** The terminal state a settlement stands for, if any: [{ success: true }]
    alone, [{ success: false }] with both conflict fields, or a rejection. *)
Definition terminal (out : Settled (gmap string JsValue)) : option Terminal :=
  match out with
  | Rejected _ => Some Failed
  | Fulfilled result =>
      match result !! "success", result !! "existingDocumentId", result !! "errorMessage" with
      | Some (JBool true), None, None => Some Succeeded
      | Some (JBool false), Some _, Some _ => Some ConflictDetected
      | _, _, _ => None
      end
  end.

(** The errors of the expected shape [{ error?: string }] that are no
    conflict: no response at all, a body without an [error] field, or an
    [error] string without the signature. An [error] field of any other
    type is not among them. *)
Definition lacks_signature (error : JsError) : bool :=
  match error_response error with
  | None => true
  | Some response =>
      match getProp (data response) "error" with
      | JUndefined | JNull => true
      | JStr s => negb (includes s conflict_signature)
      | _ => false
      end
  end.

(** The digest a negotiation request announces. *)
Definition announced_digest (q : Request) : JsValue :=
  match req_data q with
  | JsonBody d => getProp d "encoded_md5"
  | _ => JUndefined
  end.

Definition announced_filename (q : Request) : JsValue :=
  match req_data q with
  | JsonBody d => getProp d "filename"
  | _ => JUndefined
  end.

(** The digest a request carries: [encoded_md5] in a negotiation, the
    [Content-MD5] header in a direct transfer. *)
Definition digest_sent (q : Request) : option string :=
  match req_method q with
  | POST =>
      match announced_digest q with
      | JStr s => Some s
      | _ => None
      end
  | PUT => req_headers q !! "Content-MD5"
  | _ => None
  end.

End Protocol.

(** ** Mock endpoints, as the tests of the specification set them up *)

Module Mock.
Import Js Axios Documents.

(** A network that answers every negotiation with [grant] and every direct
    transfer with [transfer]. *)
Definition network (grant transfer : NetReply) : list Event -> Request -> NetReply :=
  fun _ q =>
    match req_method q with
    | POST => grant
    | PUT => transfer
    | _ => NetFailure (Error "unexpected request")
    end.

(** A world with one buffer, at reference 1, and nothing exchanged yet. *)
Definition world (grant transfer : NetReply) (contents : Crypto.bytes) : World :=
  MkWorld {[ 1%positive := contents ]} (network grant transfer) [].

Definition granted : NetReply :=
  HttpReply (MkResponse 200 (JObj {[ "temporary_url" := JStr "https://up.example/abc" ]})).

Definition forbidden : NetReply :=
  HttpReply (MkResponse 403 (JObj {[ "error" := JStr "Forbidden" ]})).

Definition stored : NetReply := HttpReply (MkResponse 200 (JStr "")).

Definition created : NetReply := HttpReply (MkResponse 201 (JStr "")).

Definition duplicate_response : Response :=
  MkResponse 409
    (JObj {[ "error" := JStr "Document already exists in knowledge base";
             "existing_document_id" := JStr "doc_123" ]}).

Definition duplicate : NetReply := HttpReply duplicate_response.

Definition internal_error : NetReply :=
  HttpReply (MkResponse 500 (JObj {[ "error" := JStr "internal error" ]})).

Definition unreachable : NetReply := NetFailure (AxiosError "Network Error" None).

Definition numeric_error : NetReply :=
  HttpReply (MkResponse 400 (JObj {[ "error" := JNum 42 ]})).

Definition listed_error : NetReply :=
  HttpReply
    (MkResponse 400
       (JObj {[ "error" := JArr [JStr "already exists in knowledge base"] ]})).

Definition pdf : Crypto.bytes := Crypto.Buffer_from "%PDF-1.4...".

Definition client : Client.SuperpoweredApiClient := Client.new "user" "pass" None.

(** [client.document.uploadDocument("kb_1", <buffer 1>, "report.pdf")] *)
Definition upload (w : World) : World * Settled (gmap string JsValue) :=
  uploadDocument (Client.document client) "kb_1" 1%positive "report.pdf" None w.

(** The worlds of the tests: a transfer that is stored, and two uploads of
    an empty file. *)
Definition stored_world : World := world granted stored pdf.

Definition empty_world : World := world granted stored [].

Definition empty_duplicate_world : World := world granted duplicate [].

End Mock.

(** ** axios: the other verbs, called without a configuration *)

Module Verbs.
Import Js Axios.

(** [instance.get(url)]. *)
Definition get (inst : AxiosInstance) (url : string) : Async Response :=
  request inst GET (JStr url) NoBody ∅.

(** [instance.patch(url, data)]. *)
Definition patch (inst : AxiosInstance) (url : string) (data : JsValue) : Async Response :=
  request inst PATCH (JStr url) (JsonBody data) ∅.

(** [instance.delete(url)]. *)
Definition delete (inst : AxiosInstance) (url : string) : Async Response :=
  request inst DELETE (JStr url) NoBody ∅.

End Verbs.

(** ** [src/knowledgeBases.ts]: the methods that pass no query parameters *)

Module KnowledgeBaseMethods.
Import Js Axios.

Definition createKnowledgeBase (this : KnowledgeBases.KnowledgeBaseAPI) (data : JsValue)
    : Async JsValue :=
  response <- post (KnowledgeBases.axiosInstance this) "/knowledge_bases" data ;;
  resolve (Axios.data response).

Definition getKnowledgeBase (this : KnowledgeBases.KnowledgeBaseAPI)
    (knowledgeBaseId : string) : Async JsValue :=
  response <-
    Verbs.get (KnowledgeBases.axiosInstance this) ("/knowledge_bases/" +:+ knowledgeBaseId) ;;
  resolve (Axios.data response).

Definition updateKnowledgeBase (this : KnowledgeBases.KnowledgeBaseAPI)
    (knowledgeBaseId : string) (data : JsValue) : Async JsValue :=
  response <-
    Verbs.patch (KnowledgeBases.axiosInstance this)
      ("/knowledge_bases/" +:+ knowledgeBaseId) data ;;
  resolve (Axios.data response).

Definition deleteKnowledgeBase (this : KnowledgeBases.KnowledgeBaseAPI)
    (knowledgeBaseId : string) : Async unit :=
  _ <-
    Verbs.delete (KnowledgeBases.axiosInstance this)
      ("/knowledge_bases/" +:+ knowledgeBaseId) ;;
  resolve tt.

Definition queryKnowledgeBases (this : KnowledgeBases.KnowledgeBaseAPI) (data : JsValue)
    : Async JsValue :=
  response <- post (KnowledgeBases.axiosInstance this) "/knowledge_bases/query" data ;;
  resolve (Axios.data response).

End KnowledgeBaseMethods.

(** ** [src/documents.ts]: the other methods that pass no query parameters *)

Module DocumentMethods.
Import Js Axios Documents.

Definition updateDocument (this : DocumentAPI) (knowledgeBaseId documentId : string)
    (data : JsValue) : Async JsValue :=
  response <-
    Verbs.patch (axiosInstance this)
      ("/knowledge_bases/" +:+ knowledgeBaseId +:+ "/documents/" +:+ documentId) data ;;
  resolve (Axios.data response).

Definition deleteDocument (this : DocumentAPI) (knowledgeBaseId documentId : string)
    : Async unit :=
  _ <-
    Verbs.delete (axiosInstance this)
      ("/knowledge_bases/" +:+ knowledgeBaseId +:+ "/documents/" +:+ documentId) ;;
  resolve tt.

Definition createDocumentWithRawText (this : DocumentAPI) (knowledgeBaseId : string)
    (data : JsValue) : Async JsValue :=
  response <-
    post (axiosInstance this)
         ("/knowledge_bases/" +:+ knowledgeBaseId +:+ "/documents/raw_text") data ;;
  resolve (Axios.data response).

Definition createDocumentFromUrl (this : DocumentAPI) (knowledgeBaseId : string)
    (data : JsValue) : Async JsValue :=
  response <-
    post (axiosInstance this)
         ("/knowledge_bases/" +:+ knowledgeBaseId +:+ "/documents/url") data ;;
  resolve (Axios.data response).

End DocumentMethods.

(** ** [src/chat.ts]: the methods that pass no query parameters *)

Module ChatMethods.
Import Js Axios.

Definition createChatThread (this : Chat.ChatAPI) (data : JsValue) : Async JsValue :=
  response <- post (Chat.axiosInstance this) "/chat/threads" data ;;
  resolve (Axios.data response).

Definition getChatThread (this : Chat.ChatAPI) (threadId : string) : Async JsValue :=
  response <- Verbs.get (Chat.axiosInstance this) ("/chat/threads/" +:+ threadId) ;;
  resolve (Axios.data response).

Definition updateChatThread (this : Chat.ChatAPI) (threadId : string) (data : JsValue)
    : Async JsValue :=
  response <- Verbs.patch (Chat.axiosInstance this) ("/chat/threads/" +:+ threadId) data ;;
  resolve (Axios.data response).

Definition deleteChatThread (this : Chat.ChatAPI) (threadId : string) : Async unit :=
  _ <- Verbs.delete (Chat.axiosInstance this) ("/chat/threads/" +:+ threadId) ;;
  resolve tt.

Definition getChatThreadResponse (this : Chat.ChatAPI) (threadId : string) (data : JsValue)
    : Async JsValue :=
  response <-
    post (Chat.axiosInstance this) ("/chat/threads/" +:+ threadId +:+ "/get_response") data ;;
  resolve (Axios.data response).

End ChatMethods.

(** ** The vocabulary of the statements about these methods *)

Module Calls.
Import Js Axios Documents.

(** A call of one of the methods above on the objects of a client. *)
Inductive Call :=
| CreateKnowledgeBase (data : JsValue)
| GetKnowledgeBase (knowledgeBaseId : string)
| UpdateKnowledgeBase (knowledgeBaseId : string) (data : JsValue)
| DeleteKnowledgeBase (knowledgeBaseId : string)
| QueryKnowledgeBases (data : JsValue)
| UpdateDocument (knowledgeBaseId documentId : string) (data : JsValue)
| DeleteDocument (knowledgeBaseId documentId : string)
| RequestSignedFileUrl (knowledgeBaseId : string) (data : JsValue)
| CreateDocumentWithRawText (knowledgeBaseId : string) (data : JsValue)
| CreateDocumentFromUrl (knowledgeBaseId : string) (data : JsValue)
| CreateChatThread (data : JsValue)
| GetChatThread (threadId : string)
| UpdateChatThread (threadId : string) (data : JsValue)
| DeleteChatThread (threadId : string)
| GetChatThreadResponse (threadId : string) (data : JsValue).

(** The value a [Promise<void>] is fulfilled with. *)
Definition void (m : Async unit) : Async JsValue :=
  _ <- m ;; resolve JUndefined.

Definition invoke (client : Client.SuperpoweredApiClient) (call : Call) : Async JsValue :=
  match call with
  | CreateKnowledgeBase data =>
      KnowledgeBaseMethods.createKnowledgeBase (Client.knowledgeBase client) data
  | GetKnowledgeBase id =>
      KnowledgeBaseMethods.getKnowledgeBase (Client.knowledgeBase client) id
  | UpdateKnowledgeBase id data =>
      KnowledgeBaseMethods.updateKnowledgeBase (Client.knowledgeBase client) id data
  | DeleteKnowledgeBase id =>
      void (KnowledgeBaseMethods.deleteKnowledgeBase (Client.knowledgeBase client) id)
  | QueryKnowledgeBases data =>
      KnowledgeBaseMethods.queryKnowledgeBases (Client.knowledgeBase client) data
  | UpdateDocument kb doc data =>
      DocumentMethods.updateDocument (Client.document client) kb doc data
  | DeleteDocument kb doc =>
      void (DocumentMethods.deleteDocument (Client.document client) kb doc)
  | RequestSignedFileUrl kb data =>
      requestSignedFileUrl (Client.document client) kb data
  | CreateDocumentWithRawText kb data =>
      DocumentMethods.createDocumentWithRawText (Client.document client) kb data
  | CreateDocumentFromUrl kb data =>
      DocumentMethods.createDocumentFromUrl (Client.document client) kb data
  | CreateChatThread data => ChatMethods.createChatThread (Client.chat client) data
  | GetChatThread id => ChatMethods.getChatThread (Client.chat client) id
  | UpdateChatThread id data => ChatMethods.updateChatThread (Client.chat client) id data
  | DeleteChatThread id => void (ChatMethods.deleteChatThread (Client.chat client) id)
  | GetChatThreadResponse id data =>
      ChatMethods.getChatThreadResponse (Client.chat client) id data
  end.

(** The calls that return nothing. *)
Definition returns_nothing (call : Call) : bool :=
  match call with
  | DeleteKnowledgeBase _ | DeleteDocument _ _ | DeleteChatThread _ => true
  | _ => false
  end.

(** The calls that send [data] as their body. *)
Definition payload (call : Call) : Body :=
  match call with
  | CreateKnowledgeBase data | UpdateKnowledgeBase _ data | QueryKnowledgeBases data
  | UpdateDocument _ _ data | RequestSignedFileUrl _ data
  | CreateDocumentWithRawText _ data | CreateDocumentFromUrl _ data
  | CreateChatThread data | UpdateChatThread _ data | GetChatThreadResponse _ data =>
      JsonBody data
  | _ => NoBody
  end.

(** An identifier without a path separator. *)
Fixpoint slash_free (s : string) : bool :=
  match s with
  | EmptyString => true
  | String c s' => negb (Ascii.eqb c "/") && slash_free s'
  end.

(** The [error] values that have no [includes] method to call. *)
Definition lacks_includes (v : JsValue) : bool :=
  match v with
  | JBool _ | JNum _ | JObj _ => true
  | _ => false
  end.

(** The condition under which the [catch] clause of [uploadDocument]
    finds the conflict signature. *)
Definition signature_found (error : JsError) : bool :=
  match error_response error with
  | None => false
  | Some response =>
      match getProp (data response) "error" with
      | JStr s => includes s conflict_signature
      | JArr xs => existsb (is_string conflict_signature) xs
      | _ => false
      end
  end.

End Calls.

(** ** An error body with a structured [error] field *)

Module Failing.
Import Js Axios.

(** A 500 whose body is [{ error: { code: 500, message: "internal error" } }]. *)
Definition structured_response : Response :=
  MkResponse 500
    (JObj {[ "error" := JObj {[ "code" := JNum 500;
                                "message" := JStr "internal error" ]} ]}).

Definition structured_error : NetReply := HttpReply structured_response.

End Failing.

(** * Properties *)

Import Js Axios Documents Protocol.

(** ** The hash and the encodings against known values *)

Example md5_empty : Crypto.hex_encode (Crypto.md5 []) = "d41d8cd98f00b204e9800998ecf8427e"%string.
Proof. vm_compute. exact eq_refl. Qed.

Example md5_abc :
  Crypto.hex_encode (Crypto.md5 (Crypto.Buffer_from "abc")) = "900150983cd24fb0d6963f7d28e17f72"%string.
Proof. vm_compute. exact eq_refl. Qed.

Example md5_fox :
  Crypto.digest (Crypto.update (Crypto.createHash Crypto.MD5)
     (Crypto.Buffer_from "The quick brown fox jumps over the lazy dog")) Crypto.Base64
  = "nhB9nTcrtoJr2B01QqQZ1g=="%string.
Proof. vm_compute. exact eq_refl. Qed.

Example md5_two_blocks :
  Crypto.hex_encode (Crypto.md5 (repeat "a"%byte 119)) = "8a7bd0732ed6a28ce75f6dabc90e1613"%string.
Proof. vm_compute. exact eq_refl. Qed.

Example md5_padding_block :
  Crypto.hex_encode (Crypto.md5 (repeat "a"%byte 56)) = "3b0c8ac703f828b04c6c197006d17218"%string.
Proof. vm_compute. exact eq_refl. Qed.

Example base64_userpass : Client.to_base64 "user:pass" = "dXNlcjpwYXNz"%string.
Proof. vm_compute. exact eq_refl. Qed.

(** ** The paths of [uploadDocument] *)

Lemma digest_content_digest contents :
  Crypto.digest (Crypto.update (Crypto.createHash Crypto.MD5) contents) Crypto.Base64
  = content_digest contents.
Proof. reflexivity. Qed.

Lemma bind_fulfilled {A B} (m : Async A) (k : A -> Async B) w w' a :
  m w = (w', Fulfilled a) -> bind m k w = k a w'.
Proof. intros H. unfold bind. now rewrite H. Qed.

Lemma bind_rejected {A B} (m : Async A) (k : A -> Async B) w w' e :
  m w = (w', Rejected e) -> bind m k w = (w', Rejected e).
Proof. intros H. unfold bind. now rewrite H. Qed.

Lemma try_catch_fulfilled {A} (body : Async A) handler w w' a :
  body w = (w', Fulfilled a) -> try_catch body handler w = (w', Fulfilled a).
Proof. intros H. unfold try_catch. now rewrite H. Qed.

Lemma try_catch_rejected {A} (body : Async A) handler w w' e :
  body w = (w', Rejected e) -> try_catch body handler w = handler e w'.
Proof. intros H. unfold try_catch. now rewrite H. Qed.

Lemma bind_lift {A B} (r : Settled A) (k : A -> Async B) w :
  bind (lift r) k w
  = match r with
    | Fulfilled a => k a w
    | Rejected e => (w, Rejected e)
    end.
Proof. unfold bind, lift. now destruct r. Qed.

Lemma read_buffer_some b w contents :
  heap w !! b = Some contents -> read_buffer b w = (w, Fulfilled contents).
Proof. intros H. unfold read_buffer. now rewrite H. Qed.

Lemma requestSignedFileUrl_run this knowledgeBaseId data w :
  let q1 := negotiation_request this knowledgeBaseId data in
  let r1 := network w (log w) q1 in
  requestSignedFileUrl this knowledgeBaseId data w
  = (exchanged w (q1, r1),
     match settle r1 with
     | Fulfilled response => Fulfilled (Axios.data response)
     | Rejected e => Rejected e
     end).
Proof.
  intros q1 r1. unfold requestSignedFileUrl, post, request, bind, dispatch.
  fold (negotiation_request this knowledgeBaseId data). fold q1. fold r1.
  unfold exchanged, resolve.
  destruct (settle r1); reflexivity.
Qed.

Lemma put_run url fileBuffer contents w :
  heap w !! fileBuffer = Some contents ->
  let q2 := transfer_request url contents in
  let r2 := network w (log w) q2 in
  put axios url fileBuffer
    {[ "Content-MD5" := content_digest contents;
       "Content-Type" := "application/octet-stream" ]} w
  = (exchanged w (q2, r2), settle r2).
Proof.
  intros Hbuf q2 r2. unfold put.
  rewrite (bind_fulfilled _ _ _ _ _ (read_buffer_some _ _ _ Hbuf)).
  reflexivity.
Qed.

(** The [catch] clause only evaluates: it leaves the world as it is. *)
Lemma catch_clause_run error w :
  (conflict <- lift (is_conflict error) ;;
   if (conflict : bool) then
     body <- lift (error_response_data error) ;;
     existing_document_id <- lift (member body "existing_document_id") ;;
     message <- lift (member body "error") ;;
     resolve {[ "success" := JBool false;
                "existingDocumentId" := existing_document_id;
                "errorMessage" := message ]}
   else throw error) w
  = (w, caught error).
Proof.
  unfold caught, bind, lift, resolve, throw.
  destruct (is_conflict error) as [[|]|]; try reflexivity.
  destruct (error_response_data error) as [body|]; try reflexivity.
  destruct (member body "existing_document_id"), (member body "error"); reflexivity.
Qed.

Lemma uploadDocument_path this knowledgeBaseId fileBuffer fileName options w :
  upload_path this knowledgeBaseId fileBuffer fileName options w
    (uploadDocument this knowledgeBaseId fileBuffer fileName options w).1
    (uploadDocument this knowledgeBaseId fileBuffer fileName options w).2.
Proof.
  unfold uploadDocument.
  destruct (heap w !! fileBuffer) as [contents|] eqn:Hbuf.
  2:{ assert (Hread : read_buffer fileBuffer w
        = (w, Rejected (TypeError "The data argument must be of type string or an instance of Buffer")))
        by (unfold read_buffer; now rewrite Hbuf).
      rewrite (bind_rejected _ _ _ _ _ Hread). now apply path_no_buffer. }
  rewrite (bind_fulfilled _ _ _ _ _ (read_buffer_some _ _ _ Hbuf)).
  rewrite digest_content_digest.
  match goal with
  | |- context [requestSignedFileUrl _ _ ?d] =>
      pose proof (requestSignedFileUrl_run this knowledgeBaseId d w) as Hneg
  end.
  cbv zeta in Hneg.
  fold (signed_url_request this knowledgeBaseId fileName options contents) in Hneg.
  set (q1 := signed_url_request this knowledgeBaseId fileName options contents) in *.
  set (r1 := network w (log w) q1) in *.
  destruct (settle r1) as [granted|e] eqn:Hs1.
  2:{ rewrite (bind_rejected _ _ _ _ _ Hneg). eapply path_negotiation_failed; eauto. }
  rewrite (bind_fulfilled _ _ _ _ _ Hneg).
  destruct (member (data granted) "temporary_url") as [url|e] eqn:Hurl.
  2:{ rewrite bind_lift. eapply path_no_grant; eauto. }
  rewrite bind_lift.
  unfold member in Hurl. destruct (nullish (data granted)) eqn:Hnull; [discriminate|].
  injection Hurl as <-.
  assert (Hbuf1 : heap (exchanged w (q1, r1)) !! fileBuffer = Some contents) by exact Hbuf.
  pose proof (put_run (getProp (data granted) "temporary_url") _ _ _ Hbuf1) as Hput.
  cbv zeta in Hput.
  set (q2 := transfer_request (getProp (data granted) "temporary_url") contents) in *.
  set (r2 := network (exchanged w (q1, r1)) (log (exchanged w (q1, r1))) q2) in *.
  destruct (settle r2) as [res|error] eqn:Hs2.
  - erewrite try_catch_fulfilled
      by (rewrite (bind_fulfilled _ _ _ _ _ Hput); reflexivity).
    eapply path_transferred; eauto.
  - erewrite try_catch_rejected by (rewrite (bind_rejected _ _ _ _ _ Hput); reflexivity).
    rewrite catch_clause_run. eapply path_transfer_failed; eauto.
Qed.

Lemma events_since_same w : events_since w w = [].
Proof. unfold events_since. apply drop_all. Qed.

Lemma events_since_one w ev : events_since w (exchanged w ev) = [ev].
Proof. unfold events_since, exchanged. cbn [log]. now rewrite drop_app_length. Qed.

Lemma events_since_two w ev1 ev2 :
  events_since w (exchanged (exchanged w ev1) ev2) = [ev1; ev2].
Proof.
  unfold events_since, exchanged. cbn [log].
  now rewrite <- app_assoc, drop_app_length.
Qed.

(** The exchanges of a call, by path: none, the negotiation alone, or the
    negotiation followed by the transfer. *)
Lemma upload_path_events this knowledgeBaseId fileBuffer fileName options w w' out :
  upload_path this knowledgeBaseId fileBuffer fileName options w w' out ->
  heap w' = heap w /\ network w' = network w
  /\ log w' = log w ++ events_since w w'.
Proof.
  intros P. destruct P; subst;
    rewrite ?events_since_same, ?events_since_one, ?events_since_two;
    unfold exchanged; cbn [heap network log];
    rewrite <- ?app_assoc, ?app_nil_r; auto.
Qed.

Arguments content_digest : simpl never.

(** Inverts the run [H : uploadDocument ... w = (w', out)] into its paths. *)
Ltac upload_inversion H :=
  match type of H with
  | uploadDocument ?this ?kb ?buf ?name ?opts ?w = (?w', ?out) =>
      let P := fresh "P" in
      pose proof (uploadDocument_path this kb buf name opts w) as P;
      rewrite H in P; cbn [fst snd] in P; clear H;
      inversion P; subst; clear P;
      rewrite ?events_since_same, ?events_since_one, ?events_since_two in *
  end.

(** Membership in the exchanges of a path. *)
Ltac event_cases :=
  repeat match goal with
  | H : _ ∈ [] |- _ => apply elem_of_nil in H; destruct H
  | H : _ ∈ _ :: _ |- _ => apply elem_of_cons in H; destruct H as [H|H]
  | H : (_, _) = (_, _) |- _ => injection H as ? ?; subst
  | H : req_method (signed_url_request _ _ _ _ _) = PUT |- _ => discriminate H
  | H : req_method (transfer_request _ _) = POST |- _ => discriminate H
  end.

Lemma settle_valid response :
  validateStatus (status response) = true ->
  settle (HttpReply response) = Fulfilled response.
Proof. intros H. unfold settle. now rewrite H. Qed.

(** C3: when the direct PUT to the signed URL is answered with HTTP status
    200, [uploadDocument] returns [{ success: true }], an object with neither
    an [existingDocumentId] nor an [errorMessage] property. *)
Theorem upload_success_on_200
    this knowledgeBaseId fileBuffer fileName options w w' out q response :
  uploadDocument this knowledgeBaseId fileBuffer fileName options w = (w', out) ->
  (q, HttpReply response) ∈ events_since w w' ->
  req_method q = PUT ->
  status response = 200 ->
  out = Fulfilled {[ "success" := JBool true ]}
  /\ ({[ "success" := JBool true ]} : gmap string JsValue) !! "existingDocumentId" = None
  /\ ({[ "success" := JBool true ]} : gmap string JsValue) !! "errorMessage" = None.
Proof.
  intros Hrun Hev Hput H200.
  assert (Hok : settle (HttpReply response) = Fulfilled response)
    by (apply settle_valid; rewrite H200; reflexivity).
  split; [|split; reflexivity].
  upload_inversion Hrun; event_cases.
  - match goal with H : settle _ = Fulfilled _, H' : _ = network _ _ _ |- _ =>
      rewrite <- H' in H; rewrite Hok in H; injection H as <- end.
    now rewrite H200.
  - match goal with H : settle _ = Rejected _, H' : _ = network _ _ _ |- _ =>
      rewrite <- H' in H; rewrite Hok in H; discriminate H end.
Qed.

Lemma upload_success_on_200_witness :
  (Mock.upload (Mock.world Mock.granted Mock.stored Mock.pdf)).2
  = Fulfilled {[ "success" := JBool true ]}.
Proof.
  eapply (upload_success_on_200 _ _ _ _ _ _ _ _
            (transfer_request (JStr "https://up.example/abc") Mock.pdf)
            (MkResponse 200 (JStr ""))).
  - apply surjective_pairing.
  - vm_compute. apply list_elem_of_further, list_elem_of_here.
  - reflexivity.
  - reflexivity.
Defined.

(** ** The substring test *)

Lemma append_cons c (p rest : string) :
  (String c p +:+ rest = String c (p +:+ rest))%string.
Proof. reflexivity. Qed.

Lemma append_empty (rest : string) : (EmptyString +:+ rest = rest)%string.
Proof. reflexivity. Qed.

Lemma prefix_app (p s : string) :
  String.prefix p s = true <-> exists rest, s = (p +:+ rest)%string.
Proof.
  revert s. induction p as [|c p IH]; intros s.
  - split; [intros _; now exists s | now destruct s].
  - destruct s as [|c' s]; simpl.
    + split; [discriminate | intros [rest H]; discriminate H].
    + setoid_rewrite append_cons.
      destruct (Ascii.ascii_dec c c') as [->|Hne].
      * rewrite IH. split; intros [rest H]; exists rest; congruence.
      * split; [discriminate | intros [rest H]; congruence].
Qed.

(** [includes] is the substring relation. *)
Lemma includes_substring (s needle : string) :
  includes s needle = true
  <-> exists before after, s = (before +:+ needle +:+ after)%string.
Proof.
  induction s as [|c s IH]; cbn [includes].
  - rewrite orb_false_r, prefix_app. split.
    + intros [rest H]. now exists EmptyString, rest.
    + intros [[|c before] [after H]]; [now exists after | discriminate H].
  - rewrite orb_true_iff, prefix_app, IH. split.
    + intros [[rest H]|[before [after H]]].
      * now exists EmptyString, rest.
      * exists (String c before), after. rewrite append_cons. now rewrite H.
    + intros [[|c' before] [after H]].
      * left. now exists after.
      * right. exists before, after. rewrite append_cons in H. congruence.
Qed.

(** ** The [catch] clause *)

Lemma error_response_axios error response :
  error_response error = Some response -> isAxiosError error = true.
Proof. destruct error; simpl; congruence. Qed.

Lemma getProp_nullish v key :
  nullish v = true -> getProp v key = JUndefined.
Proof. now destruct v. Qed.

Lemma caught_conflict error response s :
  error_response error = Some response ->
  getProp (data response) "error" = JStr s ->
  includes s conflict_signature = true ->
  caught error
  = Fulfilled {[ "success" := JBool false;
                 "existingDocumentId" := getProp (data response) "existing_document_id";
                 "errorMessage" := JStr s ]}.
Proof.
  intros Hresp Herr Hinc.
  assert (Hnull : nullish (data response) = false).
  { destruct (nullish (data response)) eqn:E; [|reflexivity].
    rewrite (getProp_nullish _ _ E) in Herr. discriminate Herr. }
  unfold caught, is_conflict, error_includes_signature, error_response_data, member, opt_chain.
  rewrite (error_response_axios _ _ Hresp), Hresp, Hnull, Herr.
  cbn [nullish call_includes truthy]. now rewrite Hinc.
Qed.

Lemma caught_hard_failure error :
  lacks_signature error = true -> caught error = Rejected error.
Proof.
  unfold lacks_signature, caught, is_conflict, error_includes_signature, opt_chain.
  intros H. destruct (isAxiosError error); [|reflexivity].
  destruct (error_response error) as [response|]; [|reflexivity].
  destruct (nullish (data response)) eqn:Hnull.
  - reflexivity.
  - destruct (getProp (data response) "error") as [| | | |s| |];
      try discriminate H; try reflexivity.
    cbn [nullish call_includes truthy].
    apply negb_true_iff in H. now rewrite H.
Qed.

(** C1: when the direct upload fails with an HTTP error response whose
    body has an [error] string containing "already exists in knowledge base",
    [uploadDocument] fulfils (it does not throw) with [success: false],
    the body's [existing_document_id] as [existingDocumentId] and the
    body's [error] string as [errorMessage]. *)
Theorem upload_conflict_result
    this knowledgeBaseId fileBuffer fileName options w w' out q reply error response s :
  uploadDocument this knowledgeBaseId fileBuffer fileName options w = (w', out) ->
  (q, reply) ∈ events_since w w' ->
  req_method q = PUT ->
  settle reply = Rejected error ->
  error_response error = Some response ->
  getProp (data response) "error" = JStr s ->
  (exists before after,
     s = (before +:+ "already exists in knowledge base" +:+ after)%string) ->
  out = Fulfilled {[ "success" := JBool false;
                     "existingDocumentId" := getProp (data response) "existing_document_id";
                     "errorMessage" := JStr s ]}.
Proof.
  intros Hrun Hev Hput Hrej Hresp Herr Hsub.
  apply includes_substring in Hsub.
  upload_inversion Hrun; event_cases.
  - match goal with H : settle _ = Fulfilled _ |- _ => rewrite Hrej in H; discriminate H end.
  - match goal with H : settle _ = Rejected _ |- _ => rewrite Hrej in H; injection H as <- end.
    now apply (caught_conflict _ response).
Qed.

Lemma upload_conflict_result_witness :
  (Mock.upload (Mock.world Mock.granted Mock.duplicate Mock.pdf)).2
  = Fulfilled {[ "success" := JBool false;
                 "existingDocumentId" :=
                   getProp (data Mock.duplicate_response) "existing_document_id";
                 "errorMessage" := JStr "Document already exists in knowledge base" ]}.
Proof.
  apply (upload_conflict_result
           (Client.document Mock.client) "kb_1" 1%positive "report.pdf" None
           (Mock.world Mock.granted Mock.duplicate Mock.pdf)
           (Mock.upload (Mock.world Mock.granted Mock.duplicate Mock.pdf)).1
           (Mock.upload (Mock.world Mock.granted Mock.duplicate Mock.pdf)).2
           (transfer_request (JStr "https://up.example/abc") Mock.pdf)
           Mock.duplicate
           (AxiosError "Request failed with status code 409" (Some Mock.duplicate_response))
           Mock.duplicate_response
           "Document already exists in knowledge base").
  - apply surjective_pairing.
  - vm_compute. apply list_elem_of_further, list_elem_of_here.
  - reflexivity.
  - vm_compute. exact eq_refl.
  - reflexivity.
  - vm_compute. exact eq_refl.
  - exists "Document "%string, EmptyString. reflexivity.
Defined.

(** The conflict of the specification's test, evaluated. *)
Example upload_conflict_doc_123 :
  (Mock.upload (Mock.world Mock.granted Mock.duplicate Mock.pdf)).2
  = Fulfilled {[ "success" := JBool false;
                 "existingDocumentId" := JStr "doc_123";
                 "errorMessage" := JStr "Document already exists in knowledge base" ]}.
Proof. vm_compute. exact eq_refl. Qed.

(** The part of the hard-failure rule the code keeps: when the direct
    upload fails with an error that has no response (a network failure),
    whose response body has no [error] field, or whose [error] is a string
    that does not contain "already exists in knowledge base",
    [uploadDocument] rejects with that very error. *)
Theorem upload_hard_failure_rethrown
    this knowledgeBaseId fileBuffer fileName options w w' out q reply error :
  uploadDocument this knowledgeBaseId fileBuffer fileName options w = (w', out) ->
  (q, reply) ∈ events_since w w' ->
  req_method q = PUT ->
  settle reply = Rejected error ->
  lacks_signature error = true ->
  out = Rejected error.
Proof.
  intros Hrun Hev Hput Hrej Hlacks.
  upload_inversion Hrun; event_cases.
  - match goal with H : settle _ = Fulfilled _ |- _ => rewrite Hrej in H; discriminate H end.
  - match goal with H : settle _ = Rejected _ |- _ => rewrite Hrej in H; injection H as <- end.
    now apply caught_hard_failure.
Qed.

Lemma upload_hard_failure_rethrown_witness :
  (Mock.upload (Mock.world Mock.granted Mock.internal_error Mock.pdf)).2
  = Rejected (AxiosError "Request failed with status code 500"
                (Some (MkResponse 500 (JObj {[ "error" := JStr "internal error" ]})))).
Proof.
  eapply (upload_hard_failure_rethrown _ _ _ _ _ _ _ _
            (transfer_request (JStr "https://up.example/abc") Mock.pdf)
            Mock.internal_error).
  - apply surjective_pairing.
  - vm_compute. apply list_elem_of_further, list_elem_of_here.
  - reflexivity.
  - vm_compute. exact eq_refl.
  - vm_compute. exact eq_refl.
Defined.

(** C2, where the code departs from it: a direct upload answered 500 with
    the body [{ error: { code: 500, message: "internal error" } }] fails
    with an error whose body has no [error] string containing "already
    exists in knowledge base", yet that error does not reach the caller.
    The [catch] clause calls [includes] on the object, and [uploadDocument]
    rejects with the [TypeError] of that call instead. *)
Theorem hard_failure_masked_by_type_error :
  settle Failing.structured_error
  = Rejected (AxiosError "Request failed with status code 500"
                (Some Failing.structured_response))
  /\ (Mock.upload (Mock.world Mock.granted Failing.structured_error Mock.pdf)).2
     = Rejected (TypeError "error.response?.data?.error?.includes is not a function")
  /\ (Mock.upload (Mock.world Mock.granted Failing.structured_error Mock.pdf)).2
     <> Rejected (AxiosError "Request failed with status code 500"
                    (Some Failing.structured_response)).
Proof.
  assert (E : (Mock.upload (Mock.world Mock.granted Failing.structured_error Mock.pdf)).2
              = Rejected (TypeError "error.response?.data?.error?.includes is not a function"))
    by (vm_compute; exact eq_refl).
  split; [vm_compute; exact eq_refl|]. split; [exact E|].
  rewrite E. discriminate.
Qed.

(** C10: when the direct PUT is answered with a status the transfer client
    accepts (2xx) other than 200, [uploadDocument] returns
    [{ success: false }] without [existingDocumentId] or [errorMessage]:
    a settlement that is none of the terminal states Succeeded,
    ConflictDetected and Failed. *)
Theorem upload_other_2xx_unclassified
    this knowledgeBaseId fileBuffer fileName options w w' out q response :
  uploadDocument this knowledgeBaseId fileBuffer fileName options w = (w', out) ->
  (q, HttpReply response) ∈ events_since w w' ->
  req_method q = PUT ->
  validateStatus (status response) = true ->
  status response <> 200 ->
  out = Fulfilled {[ "success" := JBool false ]}
  /\ ({[ "success" := JBool false ]} : gmap string JsValue) !! "existingDocumentId" = None
  /\ ({[ "success" := JBool false ]} : gmap string JsValue) !! "errorMessage" = None
  /\ terminal out = None.
Proof.
  intros Hrun Hev Hput Hvalid Hne.
  pose proof (settle_valid _ Hvalid) as Hok.
  assert (Hout : out = Fulfilled {[ "success" := JBool false ]}).
  { upload_inversion Hrun; event_cases.
    - match goal with H : settle _ = Fulfilled _, H' : _ = network _ _ _ |- _ =>
        rewrite <- H' in H; rewrite Hok in H; injection H as <- end.
      apply Z.eqb_neq in Hne. now rewrite Hne.
    - match goal with H : settle _ = Rejected _, H' : _ = network _ _ _ |- _ =>
        rewrite <- H' in H; rewrite Hok in H; discriminate H end. }
  subst out. repeat split; reflexivity.
Qed.

Lemma upload_other_2xx_unclassified_witness :
  (Mock.upload (Mock.world Mock.granted Mock.created Mock.pdf)).2
  = Fulfilled {[ "success" := JBool false ]}
  /\ terminal (Mock.upload (Mock.world Mock.granted Mock.created Mock.pdf)).2 = None.
Proof.
  destruct (upload_other_2xx_unclassified
              (Client.document Mock.client) "kb_1" 1%positive "report.pdf" None
              (Mock.world Mock.granted Mock.created Mock.pdf)
              (Mock.upload (Mock.world Mock.granted Mock.created Mock.pdf)).1
              (Mock.upload (Mock.world Mock.granted Mock.created Mock.pdf)).2
              (transfer_request (JStr "https://up.example/abc") Mock.pdf)
              (MkResponse 201 (JStr ""))) as (Hout & _ & _ & Hterm).
  - apply surjective_pairing.
  - vm_compute. apply list_elem_of_further, list_elem_of_here.
  - reflexivity.
  - reflexivity.
  - discriminate.
  - split; assumption.
Defined.

(** C4: when the signed-URL negotiation fails, [uploadDocument] rejects
    with the negotiator's error, and the negotiation is the only exchange of
    the call: no direct PUT is attempted. *)
Theorem negotiation_failure_short_circuits
    this knowledgeBaseId fileBuffer fileName options w w' out q reply e :
  uploadDocument this knowledgeBaseId fileBuffer fileName options w = (w', out) ->
  (q, reply) ∈ events_since w w' ->
  req_method q = POST ->
  settle reply = Rejected e ->
  out = Rejected e
  /\ events_since w w' = [(q, reply)]
  /\ calls PUT (events_since w w') = 0%nat.
Proof.
  intros Hrun Hev Hpost Hrej.
  upload_inversion Hrun; event_cases;
    try match goal with
        | H : settle ?r = Fulfilled _, H' : settle ?r = Rejected _ |- _ =>
            rewrite H in H'; discriminate H'
        end.
  match goal with
  | H : settle ?r = Rejected ?e1, H' : settle ?r = Rejected ?e2 |- _ =>
      rewrite H in H'; injection H' as <-
  end.
  repeat split; reflexivity.
Qed.

Lemma negotiation_failure_short_circuits_witness :
  (Mock.upload (Mock.world Mock.forbidden Mock.stored Mock.pdf)).2
  = Rejected (AxiosError "Request failed with status code 403"
                (Some (MkResponse 403 (JObj {[ "error" := JStr "Forbidden" ]}))))
  /\ calls PUT (events_since (Mock.world Mock.forbidden Mock.stored Mock.pdf)
                  (Mock.upload (Mock.world Mock.forbidden Mock.stored Mock.pdf)).1) = 0%nat.
Proof.
  destruct (negotiation_failure_short_circuits
              (Client.document Mock.client) "kb_1" 1%positive "report.pdf" None
              (Mock.world Mock.forbidden Mock.stored Mock.pdf)
              (Mock.upload (Mock.world Mock.forbidden Mock.stored Mock.pdf)).1
              (Mock.upload (Mock.world Mock.forbidden Mock.stored Mock.pdf)).2
              (signed_url_request (Client.document Mock.client) "kb_1" "report.pdf" None Mock.pdf)
              Mock.forbidden
              (AxiosError "Request failed with status code 403"
                 (Some (MkResponse 403 (JObj {[ "error" := JStr "Forbidden" ]})))))
    as (Hout & _ & Hcalls).
  - apply surjective_pairing.
  - vm_compute. apply list_elem_of_here.
  - reflexivity.
  - vm_compute. exact eq_refl.
  - split; assumption.
Defined.

(** ** What the two requests carry *)

Lemma read_buffer_rejected_none b w e :
  read_buffer b w = (w, Rejected e) -> heap w !! b = None.
Proof. unfold read_buffer. destruct (heap w !! b); [discriminate | reflexivity]. Qed.

(** Identifies the contents found on a path with the ones assumed. *)
Ltac same_contents :=
  try match goal with
      | H : read_buffer ?b ?w = (?w, Rejected _), H' : heap ?w !! ?b = Some _ |- _ =>
          apply read_buffer_rejected_none in H; rewrite H in H'; discriminate H'
      end;
  try match goal with
      | H : heap ?w !! ?b = Some ?c1, H' : heap ?w !! ?b = Some ?c2 |- _ =>
          rewrite H in H'; injection H' as ->
      end.

Lemma digest_sent_signed_url_request this knowledgeBaseId fileName options contents :
  digest_sent (signed_url_request this knowledgeBaseId fileName options contents)
  = Some (content_digest contents).
Proof. reflexivity. Qed.

Lemma digest_sent_transfer_request url contents :
  digest_sent (transfer_request url contents) = Some (content_digest contents).
Proof. reflexivity. Qed.

Lemma upload_digest_sent
    this knowledgeBaseId fileBuffer fileName options w w' out contents q r :
  uploadDocument this knowledgeBaseId fileBuffer fileName options w = (w', out) ->
  heap w !! fileBuffer = Some contents ->
  (q, r) ∈ events_since w w' ->
  digest_sent q = Some (content_digest contents).
Proof.
  intros Hrun Hbuf Hev.
  upload_inversion Hrun; same_contents; event_cases;
    auto using digest_sent_signed_url_request, digest_sent_transfer_request.
Qed.

Lemma upload_negotiates
    this knowledgeBaseId fileBuffer fileName options w w' out contents :
  uploadDocument this knowledgeBaseId fileBuffer fileName options w = (w', out) ->
  heap w !! fileBuffer = Some contents ->
  exists r1 rest,
    events_since w w'
    = (signed_url_request this knowledgeBaseId fileName options contents, r1) :: rest.
Proof.
  intros Hrun Hbuf. upload_inversion Hrun; same_contents; eauto.
Qed.

(** C5: the digest of an upload is the base64 encoding of the MD5 hash of
    the buffer; the negotiation request carries it as [encoded_md5] next to
    the given file name, and the PUT that follows goes to the granted
    [temporary_url] with the same digest as its [Content-MD5] header. *)
Theorem digest_forwarded
    this knowledgeBaseId fileBuffer fileName options w w' out contents :
  uploadDocument this knowledgeBaseId fileBuffer fileName options w = (w', out) ->
  heap w !! fileBuffer = Some contents ->
  let md5Hash := Crypto.base64_encode (Crypto.md5 contents) in
  exists q1 r1 rest,
    events_since w w' = (q1, r1) :: rest
    /\ req_method q1 = POST
    /\ announced_filename q1 = JStr fileName
    /\ announced_digest q1 = JStr md5Hash
    /\ (forall granted,
          settle r1 = Fulfilled granted -> nullish (data granted) = false ->
          exists q2 r2,
            rest = [(q2, r2)]
            /\ req_method q2 = PUT
            /\ req_url q2 = getProp (data granted) "temporary_url"
            /\ req_headers q2 !! "Content-MD5" = Some md5Hash)
    /\ (forall q2 r2, (q2, r2) ∈ rest ->
          req_method q2 = PUT /\ req_headers q2 !! "Content-MD5" = Some md5Hash).
Proof.
  intros Hrun Hbuf md5Hash.
  upload_inversion Hrun; same_contents;
    (do 3 eexists; split; [reflexivity|]);
    (split; [reflexivity|]); (split; [reflexivity|]); (split; [reflexivity|]); split;
    try (intros; event_cases; split; reflexivity);
    intros g Hg Hnull;
    try match goal with
        | H : settle ?r = _, H' : settle ?r = _ |- _ =>
            rewrite H in H'; try discriminate H'; injection H' as <-
        end.
  - match goal with
    | H : member _ _ = Rejected _ |- _ =>
        unfold member in H; rewrite Hnull in H; discriminate H
    end.
  - do 2 eexists. repeat split; reflexivity.
  - do 2 eexists. repeat split; reflexivity.
Qed.

Lemma digest_forwarded_witness :
  exists q1 r1 rest,
    events_since Mock.stored_world (Mock.upload Mock.stored_world).1 = (q1, r1) :: rest
    /\ req_method q1 = POST
    /\ announced_filename q1 = JStr "report.pdf"
    /\ announced_digest q1 = JStr (Crypto.base64_encode (Crypto.md5 Mock.pdf))
    /\ (forall granted,
          settle r1 = Fulfilled granted -> nullish (data granted) = false ->
          exists q2 r2,
            rest = [(q2, r2)]
            /\ req_method q2 = PUT
            /\ req_url q2 = getProp (data granted) "temporary_url"
            /\ req_headers q2 !! "Content-MD5"
               = Some (Crypto.base64_encode (Crypto.md5 Mock.pdf)))
    /\ (forall q2 r2, (q2, r2) ∈ rest ->
          req_method q2 = PUT
          /\ req_headers q2 !! "Content-MD5"
             = Some (Crypto.base64_encode (Crypto.md5 Mock.pdf))).
Proof.
  apply (digest_forwarded (Client.document Mock.client) "kb_1" 1%positive "report.pdf" None
           Mock.stored_world (Mock.upload Mock.stored_world).1
           (Mock.upload Mock.stored_world).2 Mock.pdf).
  - apply surjective_pairing.
  - reflexivity.
Defined.

(** The scenario of the specification, evaluated: the digest of the file,
    announced with the file name, then sent to the granted URL. *)
Example upload_report_pdf :
  map (fun ev : Event =>
         (req_method ev.1, req_url ev.1, announced_filename ev.1, digest_sent ev.1))
      (events_since Mock.stored_world (Mock.upload Mock.stored_world).1)
  = [ (POST, JStr "/knowledge_bases/kb_1/documents/request_signed_file_url",
       JStr "report.pdf", Some "Lf0Rp5T7nxVVeo7GrtP/EQ=="%string);
      (PUT, JStr "https://up.example/abc", JUndefined, Some "Lf0Rp5T7nxVVeo7GrtP/EQ=="%string) ].
Proof. vm_compute. exact eq_refl. Qed.

(** C6: the digest is a function of the buffer's bytes alone: two uploads
    of the same bytes, whatever the client, knowledge base, file name,
    options, buffer and network, announce and send one and the same digest,
    the one [crypto] computes for these bytes; the empty buffer included. *)
Theorem digest_deterministic
    this1 knowledgeBaseId1 fileBuffer1 fileName1 options1 w1 w1' out1
    this2 knowledgeBaseId2 fileBuffer2 fileName2 options2 w2 w2' out2 contents :
  uploadDocument this1 knowledgeBaseId1 fileBuffer1 fileName1 options1 w1 = (w1', out1) ->
  uploadDocument this2 knowledgeBaseId2 fileBuffer2 fileName2 options2 w2 = (w2', out2) ->
  heap w1 !! fileBuffer1 = Some contents ->
  heap w2 !! fileBuffer2 = Some contents ->
  events_since w1 w1' <> [] /\ events_since w2 w2' <> []
  /\ forall q1 r1 q2 r2,
       (q1, r1) ∈ events_since w1 w1' -> (q2, r2) ∈ events_since w2 w2' ->
       digest_sent q1 = digest_sent q2
       /\ digest_sent q1
          = Some (Crypto.digest (Crypto.update (Crypto.createHash Crypto.MD5) contents)
                                Crypto.Base64).
Proof.
  intros Hrun1 Hrun2 Hbuf1 Hbuf2.
  destruct (upload_negotiates _ _ _ _ _ _ _ _ _ Hrun1 Hbuf1) as (r1 & rest1 & E1).
  destruct (upload_negotiates _ _ _ _ _ _ _ _ _ Hrun2 Hbuf2) as (r2 & rest2 & E2).
  split; [now rewrite E1|]. split; [now rewrite E2|].
  intros q1 r1' q2 r2' Hev1 Hev2.
  rewrite (upload_digest_sent _ _ _ _ _ _ _ _ _ _ _ Hrun1 Hbuf1 Hev1).
  rewrite (upload_digest_sent _ _ _ _ _ _ _ _ _ _ _ Hrun2 Hbuf2 Hev2).
  split; reflexivity.
Qed.

Lemma digest_deterministic_witness :
  digest_sent (signed_url_request (Client.document Mock.client) "kb_1" "report.pdf" None [])
  = digest_sent (transfer_request (JStr "https://up.example/abc") [])
  /\ digest_sent (signed_url_request (Client.document Mock.client) "kb_1" "report.pdf" None [])
     = Some (Crypto.digest (Crypto.update (Crypto.createHash Crypto.MD5) []) Crypto.Base64).
Proof.
  destruct (digest_deterministic
              (Client.document Mock.client) "kb_1" 1%positive "report.pdf" None
              Mock.empty_world (Mock.upload Mock.empty_world).1
              (Mock.upload Mock.empty_world).2
              (MkDocumentAPI axios) "kb_2" 1%positive "empty.txt" None
              Mock.empty_duplicate_world
              (uploadDocument (MkDocumentAPI axios) "kb_2" 1%positive "empty.txt" None
                 Mock.empty_duplicate_world).1
              (uploadDocument (MkDocumentAPI axios) "kb_2" 1%positive "empty.txt" None
                 Mock.empty_duplicate_world).2
              []) as (_ & _ & H).
  - apply surjective_pairing.
  - apply surjective_pairing.
  - reflexivity.
  - reflexivity.
  - apply (H _ Mock.granted _ Mock.duplicate).
    + vm_compute. apply list_elem_of_here.
    + vm_compute. apply list_elem_of_further, list_elem_of_here.
Defined.

(** The digest of the empty buffer. *)
Example digest_empty_buffer :
  Crypto.digest (Crypto.update (Crypto.createHash Crypto.MD5) []) Crypto.Base64
  = "1B2M2Y8AsgTpgAmY7PhCfg=="%string.
Proof. vm_compute. exact eq_refl. Qed.

(** ** The direct transfer *)

Lemma settle_fulfilled_http reply response :
  settle reply = Fulfilled response ->
  reply = HttpReply response /\ validateStatus (status response) = true.
Proof.
  destruct reply as [r|e]; simpl; [|discriminate].
  destruct (validateStatus (status r)) eqn:E; [|discriminate].
  intros [= <-]. auto.
Qed.

(** C7: the direct transfer is a PUT to the granted [temporary_url] with
    the headers [Content-MD5] (the digest) and [Content-Type]
    ([application/octet-stream]) and the raw bytes of the file as its body;
    it goes through the plain [axios] export, not through the client's
    authenticated instance: no base URL and no [Authorization] header,
    which the negotiation before it does carry. *)
Theorem direct_transfer_unauthenticated
    username password baseURL knowledgeBaseId fileBuffer fileName options
    w w' out contents q r :
  uploadDocument (Client.document (Client.new username password baseURL))
    knowledgeBaseId fileBuffer fileName options w = (w', out) ->
  heap w !! fileBuffer = Some contents ->
  (q, r) ∈ events_since w w' ->
  req_method q = PUT ->
  exists q1 r1 granted,
    events_since w w' = [(q1, r1); (q, r)]
    /\ settle r1 = Fulfilled granted
    /\ req_url q = getProp (data granted) "temporary_url"
    /\ req_headers q !! "Content-MD5" = Some (Crypto.base64_encode (Crypto.md5 contents))
    /\ req_headers q !! "Content-Type" = Some "application/octet-stream"%string
    /\ req_data q = BufferBody contents
    /\ req_baseURL q = None
    /\ req_headers q !! "Authorization" = None
    /\ req_headers q1 !! "Authorization"
       = Some ("Basic " +:+ Client.to_base64 (username +:+ ":" +:+ password))%string
    /\ req_baseURL q1 = Some (default "https://api.superpowered.ai/v1"%string baseURL).
Proof.
  intros Hrun Hbuf Hev Hput.
  upload_inversion Hrun; same_contents; event_cases;
    do 3 eexists; (split; [reflexivity|]); (split; [eassumption|]);
    repeat split; reflexivity.
Qed.

Lemma direct_transfer_unauthenticated_witness :
  exists q1 r1 granted,
    events_since Mock.stored_world (Mock.upload Mock.stored_world).1
    = [(q1, r1); (transfer_request (JStr "https://up.example/abc") Mock.pdf, Mock.stored)]
    /\ settle r1 = Fulfilled granted
    /\ req_url (transfer_request (JStr "https://up.example/abc") Mock.pdf)
       = getProp (data granted) "temporary_url"
    /\ req_headers (transfer_request (JStr "https://up.example/abc") Mock.pdf) !! "Content-MD5"
       = Some (Crypto.base64_encode (Crypto.md5 Mock.pdf))
    /\ req_headers (transfer_request (JStr "https://up.example/abc") Mock.pdf) !! "Content-Type"
       = Some "application/octet-stream"%string
    /\ req_data (transfer_request (JStr "https://up.example/abc") Mock.pdf)
       = BufferBody Mock.pdf
    /\ req_baseURL (transfer_request (JStr "https://up.example/abc") Mock.pdf) = None
    /\ req_headers (transfer_request (JStr "https://up.example/abc") Mock.pdf) !! "Authorization"
       = None
    /\ req_headers q1 !! "Authorization"
       = Some ("Basic " +:+ Client.to_base64 ("user" +:+ ":" +:+ "pass"))%string
    /\ req_baseURL q1 = Some (default "https://api.superpowered.ai/v1"%string None).
Proof.
  apply (direct_transfer_unauthenticated "user" "pass" None "kb_1" 1%positive "report.pdf" None
           Mock.stored_world (Mock.upload Mock.stored_world).1
           (Mock.upload Mock.stored_world).2 Mock.pdf).
  - apply surjective_pairing.
  - reflexivity.
  - vm_compute. apply list_elem_of_further, list_elem_of_here.
  - reflexivity.
Defined.

(** The headers of the two requests of the scenario, evaluated. *)
Example upload_report_pdf_headers :
  map (fun ev : Event => (req_baseURL ev.1, req_headers ev.1))
      (events_since Mock.stored_world (Mock.upload Mock.stored_world).1)
  = [ (Some "https://api.superpowered.ai/v1"%string,
       {[ "Authorization" := "Basic dXNlcjpwYXNz"%string;
          "Accept" := "application/json"%string;
          "Content-Type" := "application/json"%string ]});
      (None,
       {[ "Content-MD5" := "Lf0Rp5T7nxVVeo7GrtP/EQ=="%string;
          "Content-Type" := "application/octet-stream"%string;
          "Accept" := "application/json, text/plain, */*"%string ]}) ].
Proof. vm_compute. exact eq_refl. Qed.

(** ** The buffer *)

(** C9: [uploadDocument] leaves the heap, and with it the caller's buffer,
    as it found it on every path; the bytes it hashes for the digest and
    the bytes it sends in the direct PUT are the bytes of that buffer. *)
Theorem buffer_untouched this knowledgeBaseId fileBuffer fileName options w :
  heap (uploadDocument this knowledgeBaseId fileBuffer fileName options w).1 = heap w
  /\ forall contents,
       heap w !! fileBuffer = Some contents ->
       heap (uploadDocument this knowledgeBaseId fileBuffer fileName options w).1 !! fileBuffer
       = Some contents
       /\ forall q r,
            (q, r) ∈ events_since w
                       (uploadDocument this knowledgeBaseId fileBuffer fileName options w).1 ->
            digest_sent q = Some (Crypto.base64_encode (Crypto.md5 contents))
            /\ (req_method q = PUT -> req_data q = BufferBody contents).
Proof.
  pose proof (uploadDocument_path this knowledgeBaseId fileBuffer fileName options w) as P.
  destruct (uploadDocument this knowledgeBaseId fileBuffer fileName options w) as [w' out]
    eqn:Hrun.
  cbn [fst snd] in *.
  destruct (upload_path_events _ _ _ _ _ _ _ _ P) as (Hheap & _ & _).
  split; [exact Hheap|].
  intros contents Hbuf. split; [now rewrite Hheap|].
  intros q r Hev. split.
  - exact (upload_digest_sent _ _ _ _ _ _ _ _ _ _ _ Hrun Hbuf Hev).
  - intros Hput. clear P.
    upload_inversion Hrun; same_contents; event_cases; reflexivity.
Qed.

Lemma buffer_untouched_witness :
  heap (Mock.upload (Mock.world Mock.granted Mock.duplicate Mock.pdf)).1 !! 1%positive
  = Some Mock.pdf.
Proof.
  destruct (buffer_untouched (Client.document Mock.client) "kb_1" 1%positive "report.pdf" None
              (Mock.world Mock.granted Mock.duplicate Mock.pdf)) as [_ H].
  destruct (H Mock.pdf) as [Hsame _]; [reflexivity|].
  exact Hsame.
Defined.

(** ** One pass *)

Lemma calls_one m q (r : NetReply) :
  req_method q = m -> calls m [(q, r)] = 1%nat.
Proof.
  intros H. unfold calls. cbn [filter list_filter]. now rewrite decide_True.
Qed.

Lemma calls_none m q (r : NetReply) :
  req_method q <> m -> calls m [(q, r)] = 0%nat.
Proof.
  intros H. unfold calls. cbn [filter list_filter]. now rewrite decide_False.
Qed.

Lemma calls_cons m ev evs : calls m (ev :: evs) = (calls m [ev] + calls m evs)%nat.
Proof.
  unfold calls. cbn [filter list_filter].
  destruct (decide (req_method ev.1 = m)); reflexivity.
Qed.

Lemma calls_POST_negotiation this knowledgeBaseId fileName options contents (r : NetReply) :
  calls POST [(signed_url_request this knowledgeBaseId fileName options contents, r)] = 1%nat.
Proof. now apply calls_one. Qed.

Lemma calls_PUT_negotiation this knowledgeBaseId fileName options contents (r : NetReply) :
  calls PUT [(signed_url_request this knowledgeBaseId fileName options contents, r)] = 0%nat.
Proof. now apply calls_none. Qed.

Lemma calls_POST_transfer url contents (r : NetReply) :
  calls POST [(transfer_request url contents, r)] = 0%nat.
Proof. now apply calls_none. Qed.

Lemma calls_PUT_transfer url contents (r : NetReply) :
  calls PUT [(transfer_request url contents, r)] = 1%nat.
Proof. now apply calls_one. Qed.

(** Counts the calls of a path. *)
Ltac count_calls :=
  rewrite ?(calls_cons _ (_, _) [_]);
  rewrite ?calls_POST_negotiation, ?calls_PUT_negotiation,
    ?calls_POST_transfer, ?calls_PUT_transfer.

Lemma caught_terminal error :
  exists t, terminal (caught error) = Some t.
Proof.
  unfold caught.
  destruct (is_conflict error) as [[|]|]; [|now exists Failed..].
  destruct (error_response_data error) as [body|]; [|now exists Failed].
  destruct (member body "existing_document_id"), (member body "error");
    try (now exists Failed).
  now exists ConflictDetected.
Qed.

(** C8, as the code has it: a call exchanges nothing, or the negotiation
    alone, or the negotiation followed by the direct PUT, in this order: at
    most one of each, no retry and no step back; it settles in exactly one
    of Succeeded, ConflictDetected and Failed, except when the PUT is
    answered with an accepted status other than 200, where it returns the
    plain [{ success: false }]. *)
Theorem single_pass this knowledgeBaseId fileBuffer fileName options w :
  (events_since w (uploadDocument this knowledgeBaseId fileBuffer fileName options w).1 = []
   \/ (exists q1 r1,
         events_since w (uploadDocument this knowledgeBaseId fileBuffer fileName options w).1
         = [(q1, r1)]
         /\ req_method q1 = POST)
   \/ (exists q1 r1 q2 r2,
         events_since w (uploadDocument this knowledgeBaseId fileBuffer fileName options w).1
         = [(q1, r1); (q2, r2)]
         /\ req_method q1 = POST /\ req_method q2 = PUT))
  /\ (calls POST (events_since w
        (uploadDocument this knowledgeBaseId fileBuffer fileName options w).1) <= 1)%nat
  /\ (calls PUT (events_since w
        (uploadDocument this knowledgeBaseId fileBuffer fileName options w).1) <= 1)%nat
  /\ ((exists t,
         terminal (uploadDocument this knowledgeBaseId fileBuffer fileName options w).2 = Some t)
      \/ ((uploadDocument this knowledgeBaseId fileBuffer fileName options w).2
          = Fulfilled {[ "success" := JBool false ]}
          /\ terminal (uploadDocument this knowledgeBaseId fileBuffer fileName options w).2 = None
          /\ exists q1 r1 q2 response,
               events_since w (uploadDocument this knowledgeBaseId fileBuffer fileName options w).1
               = [(q1, r1); (q2, HttpReply response)]
               /\ validateStatus (status response) = true
               /\ status response <> 200)).
Proof.
  pose proof (uploadDocument_path this knowledgeBaseId fileBuffer fileName options w) as P.
  destruct (uploadDocument this knowledgeBaseId fileBuffer fileName options w) as [w' out].
  cbn [fst snd] in *.
  destruct P; subst;
    rewrite ?events_since_same, ?events_since_one, ?events_since_two.
  - split; [now left|]. repeat split; [cbn; lia..|]. left. now exists Failed.
  - split; [right; left; eauto|].
    count_calls.
    repeat split; [lia..|]. left. now exists Failed.
  - split; [right; left; eauto|].
    count_calls.
    repeat split; [lia..|]. left. now exists Failed.
  - split; [right; right; do 4 eexists; repeat split; reflexivity|].
    count_calls.
    repeat split; [lia..|].
    match goal with H : settle _ = Fulfilled _ |- _ =>
      apply settle_fulfilled_http in H; destruct H as [Hreply Hvalid] end.
    destruct (Z.eqb_spec (status res) 200) as [E|E].
    + left. now exists Succeeded.
    + right. repeat split; try reflexivity.
      do 4 eexists. rewrite Hreply. repeat split; eauto.
  - split; [right; right; do 4 eexists; repeat split; reflexivity|].
    count_calls.
    repeat split; [lia..|]. left. apply caught_terminal.
Qed.

(** C8, as stated, fails: a transfer answered with 201 settles in none of
    the three terminal states. *)
Lemma single_pass_counterexample :
  ~ (forall this knowledgeBaseId fileBuffer fileName options w,
       exists t,
         terminal (uploadDocument this knowledgeBaseId fileBuffer fileName options w).2
         = Some t).
Proof.
  intros H.
  destruct (H (Client.document Mock.client) "kb_1"%string 1%positive "report.pdf"%string None
              (Mock.world Mock.granted Mock.created Mock.pdf)) as [t Ht].
  vm_compute in Ht. discriminate Ht.
Qed.

(** ** Further paths, evaluated *)

(** A network failure reaches the caller as it is. *)
Example upload_unreachable :
  (Mock.upload (Mock.world Mock.granted Mock.unreachable Mock.pdf)).2
  = Rejected (AxiosError "Network Error" None).
Proof. vm_compute. exact eq_refl. Qed.

(** A value that is no buffer is refused before anything is exchanged. *)
Example upload_no_buffer :
  uploadDocument (Client.document Mock.client) "kb_1" 2%positive "report.pdf" None
    Mock.stored_world
  = (Mock.stored_world,
     Rejected (TypeError "The data argument must be of type string or an instance of Buffer")).
Proof. reflexivity. Qed.

(** Outside the error shape [{ error: string }]: an [error] that is a
    number has no [includes], and the [catch] clause throws a [TypeError]
    of its own. *)
Example upload_numeric_error :
  (Mock.upload (Mock.world Mock.granted Mock.numeric_error Mock.pdf)).2
  = Rejected (TypeError "error.response?.data?.error?.includes is not a function").
Proof. vm_compute. exact eq_refl. Qed.

(** Outside that shape too: on an array, [includes] is membership. *)
Example upload_listed_error :
  (Mock.upload (Mock.world Mock.granted Mock.listed_error Mock.pdf)).2
  = Fulfilled {[ "success" := JBool false;
                 "existingDocumentId" := JUndefined;
                 "errorMessage" := JArr [JStr "already exists in knowledge base"] ]}.
Proof. vm_compute. exact eq_refl. Qed.

(** A grant without a body: reading [temporary_url] throws, and no
    transfer follows. *)
Example upload_null_grant :
  (uploadDocument (Client.document Mock.client) "kb_1" 1%positive "report.pdf" None
     (Mock.world (HttpReply (MkResponse 200 JNull)) Mock.stored Mock.pdf)).2
  = Rejected (TypeError "Cannot read properties of undefined (reading 'temporary_url')").
Proof. vm_compute. exact eq_refl. Qed.

(** * Further properties of the code *)

(** ** [uploadDocument]: what a result tells the caller *)

Lemma caught_fulfilled_success error result :
  caught error = Fulfilled result -> result !! "success" = Some (JBool false).
Proof.
  unfold caught.
  destruct (is_conflict error) as [[|]|]; try discriminate.
  destruct (error_response_data error) as [body|]; try discriminate.
  destruct (member body "existing_document_id"), (member body "error"); try discriminate.
  intros [= <-]. reflexivity.
Qed.

(** X1: a result with [success: true] is only ever returned after a direct
    PUT that was answered with status 200. *)
Theorem success_only_after_200
    this knowledgeBaseId fileBuffer fileName options w w' result :
  uploadDocument this knowledgeBaseId fileBuffer fileName options w = (w', Fulfilled result) ->
  result !! "success" = Some (JBool true) ->
  exists q1 r1 q2 response,
    events_since w w' = [(q1, r1); (q2, HttpReply response)]
    /\ req_method q1 = POST
    /\ req_method q2 = PUT
    /\ status response = 200.
Proof.
  intros Hrun Hsuccess.
  upload_inversion Hrun.
  - match goal with H : settle _ = Fulfilled _ |- _ =>
      apply settle_fulfilled_http in H; destruct H as [Hreply _] end.
    rewrite lookup_singleton_eq in Hsuccess. injection Hsuccess as Hsuccess.
    apply Z.eqb_eq in Hsuccess.
    do 4 eexists. rewrite <- Hreply. repeat split; [reflexivity..|exact Hsuccess].
  - match goal with H : caught _ = Fulfilled _ |- _ =>
      apply caught_fulfilled_success in H; rewrite H in Hsuccess; discriminate Hsuccess end.
Qed.

Lemma success_only_after_200_witness :
  exists q1 r1 q2 response,
    events_since Mock.stored_world (Mock.upload Mock.stored_world).1
    = [(q1, r1); (q2, HttpReply response)]
    /\ req_method q1 = POST
    /\ req_method q2 = PUT
    /\ status response = 200.
Proof.
  apply (success_only_after_200 (Client.document Mock.client) "kb_1" 1%positive "report.pdf"
           None Mock.stored_world (Mock.upload Mock.stored_world).1
           {[ "success" := JBool true ]}).
  - vm_compute. exact eq_refl.
  - reflexivity.
Defined.

(** X2: a grant whose body is [null] or [undefined] makes [uploadDocument]
    reject with a [TypeError] after the negotiation; no direct PUT is sent. *)
Theorem empty_grant_rejected
    this knowledgeBaseId fileBuffer fileName options w w' out q r granted :
  uploadDocument this knowledgeBaseId fileBuffer fileName options w = (w', out) ->
  (q, r) ∈ events_since w w' ->
  req_method q = POST ->
  settle r = Fulfilled granted ->
  nullish (data granted) = true ->
  (exists message, out = Rejected (TypeError message))
  /\ events_since w w' = [(q, r)]
  /\ calls PUT (events_since w w') = 0%nat.
Proof.
  intros Hrun Hev Hpost Hgrant Hnull.
  upload_inversion Hrun; event_cases;
    try match goal with
        | H : settle ?x = Fulfilled _, H' : settle ?x = Rejected _ |- _ =>
            rewrite H in H'; discriminate H'
        | H : settle ?x = Fulfilled ?a, H' : settle ?x = Fulfilled ?b |- _ =>
            rewrite H in H'; injection H' as ->
        end;
    try match goal with
        | H : nullish ?d = true, H' : nullish ?d = false |- _ =>
            rewrite H in H'; discriminate H'
        end.
  match goal with H : member _ _ = Rejected _ |- _ =>
    unfold member in H; rewrite Hnull in H; injection H as <- end.
  repeat split; eauto.
Qed.

Lemma empty_grant_rejected_witness :
  (exists message,
     (uploadDocument (Client.document Mock.client) "kb_1" 1%positive "report.pdf" None
        (Mock.world (HttpReply (MkResponse 200 JNull)) Mock.stored Mock.pdf)).2
     = Rejected (TypeError message))
  /\ calls PUT
       (events_since (Mock.world (HttpReply (MkResponse 200 JNull)) Mock.stored Mock.pdf)
          (uploadDocument (Client.document Mock.client) "kb_1" 1%positive "report.pdf" None
             (Mock.world (HttpReply (MkResponse 200 JNull)) Mock.stored Mock.pdf)).1)
     = 0%nat.
Proof.
  destruct (empty_grant_rejected (Client.document Mock.client) "kb_1" 1%positive "report.pdf"
              None (Mock.world (HttpReply (MkResponse 200 JNull)) Mock.stored Mock.pdf)
              (uploadDocument (Client.document Mock.client) "kb_1" 1%positive "report.pdf" None
                 (Mock.world (HttpReply (MkResponse 200 JNull)) Mock.stored Mock.pdf)).1
              (uploadDocument (Client.document Mock.client) "kb_1" 1%positive "report.pdf" None
                 (Mock.world (HttpReply (MkResponse 200 JNull)) Mock.stored Mock.pdf)).2
              (signed_url_request (Client.document Mock.client) "kb_1" "report.pdf" None Mock.pdf)
              (HttpReply (MkResponse 200 JNull)) (MkResponse 200 JNull))
    as (Hout & _ & Hcalls).
  - apply surjective_pairing.
  - vm_compute. apply list_elem_of_here.
  - reflexivity.
  - reflexivity.
  - reflexivity.
  - split; assumption.
Defined.

(** X3: the negotiation of an upload goes to the path of the knowledge
    base, asks for a PUT grant, and forwards every option under its wire
    name; options left out are [undefined]. *)
Theorem negotiation_forwards_options
    this knowledgeBaseId fileBuffer fileName options w w' out contents :
  uploadDocument this knowledgeBaseId fileBuffer fileName options w = (w', out) ->
  heap w !! fileBuffer = Some contents ->
  exists q1 r1 rest body,
    events_since w w' = (q1, r1) :: rest
    /\ req_url q1
       = JStr ("/knowledge_bases/" +:+ knowledgeBaseId +:+ "/documents/request_signed_file_url")
    /\ req_data q1 = JsonBody body
    /\ getProp body "method" = JStr "PUT"
    /\ getProp body "link_to_source" = opt_string (options ≫= linkToSource)
    /\ getProp body "supp_id" = opt_string (options ≫= suppId)
    /\ getProp body "description" = opt_string (options ≫= description)
    /\ getProp body "is_update" = opt_bool (options ≫= isUpdate)
    /\ getProp body "chunk_header" = opt_string (options ≫= chunkHeader)
    /\ getProp body "auto_context" = opt_bool (options ≫= autoContext).
Proof.
  intros Hrun Hbuf.
  destruct (upload_negotiates _ _ _ _ _ _ _ _ _ Hrun Hbuf) as (r1 & rest & E).
  do 4 eexists. split; [exact E|]. repeat split; reflexivity.
Qed.

Lemma negotiation_forwards_options_witness :
  exists q1 r1 rest body,
    events_since Mock.stored_world
      (uploadDocument (Client.document Mock.client) "kb_1" 1%positive "report.pdf"
         (Some (MkUploadOptions (Some "https://src.example/r"%string) None
                  (Some "A report"%string) (Some true) None None))
         Mock.stored_world).1
    = (q1, r1) :: rest
    /\ req_url q1
       = JStr ("/knowledge_bases/" +:+ "kb_1" +:+ "/documents/request_signed_file_url")
    /\ req_data q1 = JsonBody body
    /\ getProp body "method" = JStr "PUT"
    /\ getProp body "link_to_source" = JStr "https://src.example/r"
    /\ getProp body "supp_id" = JUndefined
    /\ getProp body "description" = JStr "A report"
    /\ getProp body "is_update" = JBool true
    /\ getProp body "chunk_header" = JUndefined
    /\ getProp body "auto_context" = JUndefined.
Proof.
  apply (negotiation_forwards_options (Client.document Mock.client) "kb_1" 1%positive
           "report.pdf"
           (Some (MkUploadOptions (Some "https://src.example/r"%string) None
                    (Some "A report"%string) (Some true) None None))
           Mock.stored_world
           (uploadDocument (Client.document Mock.client) "kb_1" 1%positive "report.pdf"
              (Some (MkUploadOptions (Some "https://src.example/r"%string) None
                       (Some "A report"%string) (Some true) None None))
              Mock.stored_world).1
           (uploadDocument (Client.document Mock.client) "kb_1" 1%positive "report.pdf"
              (Some (MkUploadOptions (Some "https://src.example/r"%string) None
                       (Some "A report"%string) (Some true) None None))
              Mock.stored_world).2
           Mock.pdf).
  - apply surjective_pairing.
  - reflexivity.
Defined.

(** ** [uploadDocument]: the [catch] clause outside the expected error shape *)

Lemma caught_lacks_includes error response :
  error_response error = Some response ->
  Calls.lacks_includes (getProp (data response) "error") = true ->
  caught error
  = Rejected (TypeError "error.response?.data?.error?.includes is not a function").
Proof.
  intros Hresp Hlacks.
  assert (Hnull : nullish (data response) = false).
  { destruct (nullish (data response)) eqn:E; [|reflexivity].
    rewrite (getProp_nullish _ _ E) in Hlacks. discriminate Hlacks. }
  unfold caught, is_conflict, error_includes_signature, opt_chain.
  rewrite (error_response_axios _ _ Hresp), Hresp, Hnull.
  destruct (getProp (data response) "error"); try discriminate Hlacks; reflexivity.
Qed.

(** X4: when the failed transfer's response body has an [error] that is a
    number, a boolean or an object, the [catch] clause itself throws:
    [uploadDocument] rejects with a [TypeError], and the transfer's own
    error does not reach the caller. *)
Theorem transfer_error_masked
    this knowledgeBaseId fileBuffer fileName options w w' out q reply error response :
  uploadDocument this knowledgeBaseId fileBuffer fileName options w = (w', out) ->
  (q, reply) ∈ events_since w w' ->
  req_method q = PUT ->
  settle reply = Rejected error ->
  error_response error = Some response ->
  Calls.lacks_includes (getProp (data response) "error") = true ->
  out = Rejected (TypeError "error.response?.data?.error?.includes is not a function")
  /\ out <> Rejected error.
Proof.
  intros Hrun Hev Hput Hrej Hresp Hlacks.
  assert (Hout : out
    = Rejected (TypeError "error.response?.data?.error?.includes is not a function")).
  { upload_inversion Hrun; event_cases.
    - match goal with H : settle _ = Fulfilled _ |- _ => rewrite Hrej in H; discriminate H end.
    - match goal with H : settle _ = Rejected _ |- _ => rewrite Hrej in H; injection H as <- end.
      now apply (caught_lacks_includes _ response). }
  split; [exact Hout|].
  rewrite Hout. intros [= <-]. discriminate Hresp.
Qed.

Lemma transfer_error_masked_witness :
  (Mock.upload (Mock.world Mock.granted Mock.numeric_error Mock.pdf)).2
  = Rejected (TypeError "error.response?.data?.error?.includes is not a function")
  /\ (Mock.upload (Mock.world Mock.granted Mock.numeric_error Mock.pdf)).2
     <> Rejected (AxiosError "Request failed with status code 400"
                    (Some (MkResponse 400 (JObj {[ "error" := JNum 42 ]})))).
Proof.
  apply (transfer_error_masked (Client.document Mock.client) "kb_1" 1%positive "report.pdf"
           None (Mock.world Mock.granted Mock.numeric_error Mock.pdf)
           (Mock.upload (Mock.world Mock.granted Mock.numeric_error Mock.pdf)).1
           (Mock.upload (Mock.world Mock.granted Mock.numeric_error Mock.pdf)).2
           (transfer_request (JStr "https://up.example/abc") Mock.pdf)
           Mock.numeric_error
           (AxiosError "Request failed with status code 400"
              (Some (MkResponse 400 (JObj {[ "error" := JNum 42 ]}))))
           (MkResponse 400 (JObj {[ "error" := JNum 42 ]}))).
  - apply surjective_pairing.
  - vm_compute. apply list_elem_of_further, list_elem_of_here.
  - reflexivity.
  - vm_compute. exact eq_refl.
  - reflexivity.
  - vm_compute. exact eq_refl.
Defined.

Lemma caught_fulfilled_iff error :
  (exists result, caught error = Fulfilled result) <-> Calls.signature_found error = true.
Proof.
  unfold Calls.signature_found, caught, is_conflict, error_includes_signature,
    error_response_data, member, opt_chain.
  destruct error as [message [response|]|message|message]; cbn [isAxiosError error_response];
    try (split; [intros [result H]; discriminate H | discriminate]).
  destruct (nullish (data response)) eqn:Hnull.
  - rewrite (getProp_nullish _ _ Hnull).
    split; [intros [result H]; discriminate H | discriminate].
  - destruct (getProp (data response) "error") as [| | | |s|xs|];
      cbn [nullish call_includes truthy];
      try (split; [intros [result H]; discriminate H | discriminate]).
    + destruct (includes s conflict_signature);
        (split; [intros [result H]; (reflexivity || discriminate H) | ]);
        [eauto | discriminate].
    + destruct (existsb (is_string conflict_signature) xs);
        (split; [intros [result H]; (reflexivity || discriminate H) | ]);
        [eauto | discriminate].
Qed.

(** X5: after a failed transfer, [uploadDocument] returns a result rather
    than rejecting exactly when the error carries a response whose body has
    an [error] that is a string containing the conflict signature or an
    array with the signature as an element; that result has
    [success: false]. *)
Theorem conflict_result_iff
    this knowledgeBaseId fileBuffer fileName options w w' out q reply error :
  uploadDocument this knowledgeBaseId fileBuffer fileName options w = (w', out) ->
  (q, reply) ∈ events_since w w' ->
  req_method q = PUT ->
  settle reply = Rejected error ->
  ((exists result, out = Fulfilled result) <-> Calls.signature_found error = true)
  /\ (forall result, out = Fulfilled result -> result !! "success" = Some (JBool false)).
Proof.
  intros Hrun Hev Hput Hrej.
  assert (Hout : out = caught error).
  { upload_inversion Hrun; event_cases.
    - match goal with H : settle _ = Fulfilled _ |- _ => rewrite Hrej in H; discriminate H end.
    - match goal with H : settle _ = Rejected _ |- _ => rewrite Hrej in H; injection H as <- end.
      reflexivity. }
  subst out. split.
  - apply caught_fulfilled_iff.
  - intros result. apply caught_fulfilled_success.
Qed.

Lemma conflict_result_iff_witness :
  ((exists result,
      (Mock.upload (Mock.world Mock.granted Mock.listed_error Mock.pdf)).2 = Fulfilled result)
   <-> Calls.signature_found
         (AxiosError "Request failed with status code 400"
            (Some (MkResponse 400
               (JObj {[ "error" := JArr [JStr "already exists in knowledge base"] ]}))))
       = true)
  /\ (forall result,
        (Mock.upload (Mock.world Mock.granted Mock.listed_error Mock.pdf)).2 = Fulfilled result ->
        result !! "success" = Some (JBool false)).
Proof.
  apply (conflict_result_iff (Client.document Mock.client) "kb_1" 1%positive "report.pdf"
           None (Mock.world Mock.granted Mock.listed_error Mock.pdf)
           (Mock.upload (Mock.world Mock.granted Mock.listed_error Mock.pdf)).1
           (Mock.upload (Mock.world Mock.granted Mock.listed_error Mock.pdf)).2
           (transfer_request (JStr "https://up.example/abc") Mock.pdf)
           Mock.listed_error).
  - apply surjective_pairing.
  - vm_compute. apply list_elem_of_further, list_elem_of_here.
  - reflexivity.
  - vm_compute. exact eq_refl.
Defined.

(** ** The digest on the wire *)

Lemma md5_length msg : length (Crypto.md5 msg) = 16%nat.
Proof.
  unfold Crypto.md5.
  destruct (Crypto.md5_blocks _ _ _) as [a b c d].
  rewrite !length_app. unfold Crypto.bytes_le. now rewrite !length_map, !length_seq.
Qed.

Lemma base64_encode_16 (bs : Crypto.bytes) :
  length bs = 16%nat ->
  String.length (Crypto.base64_encode bs) = 24%nat
  /\ exists body, Crypto.base64_encode bs = (body +:+ "==")%string.
Proof.
  intros H.
  do 17 (destruct bs as [|? bs]; try discriminate H).
  cbn [Crypto.base64_encode]. split; [reflexivity|].
  eexists (String _ (String _ (String _ (String _ (String _ (String _ (String _ (String _
          (String _ (String _ (String _ (String _ (String _ (String _ (String _ (String _
          (String _ (String _ (String _ (String _ (String _ (String _
           EmptyString)))))))))))))))))))))).
  reflexivity.
Qed.

(** X6: whatever the file, the digest [uploadDocument] announces and sends
    is 24 characters long and ends in the base64 padding [==]: the encoding
    of a 16-byte hash. *)
Theorem digest_sent_shape
    this knowledgeBaseId fileBuffer fileName options w w' out q r :
  uploadDocument this knowledgeBaseId fileBuffer fileName options w = (w', out) ->
  (q, r) ∈ events_since w w' ->
  exists md5Hash body,
    digest_sent q = Some md5Hash
    /\ String.length md5Hash = 24%nat
    /\ md5Hash = (body +:+ "==")%string.
Proof.
  intros Hrun Hev.
  assert (exists contents, heap w !! fileBuffer = Some contents) as [contents Hbuf].
  { upload_inversion Hrun; event_cases; eauto. }
  destruct (base64_encode_16 (Crypto.md5 contents) (md5_length contents)) as (Hlen & body & E).
  exists (content_digest contents), body.
  split; [exact (upload_digest_sent _ _ _ _ _ _ _ _ _ _ _ Hrun Hbuf Hev)|].
  split; assumption.
Qed.

Lemma digest_sent_shape_witness :
  exists md5Hash body,
    digest_sent (transfer_request (JStr "https://up.example/abc") Mock.pdf) = Some md5Hash
    /\ String.length md5Hash = 24%nat
    /\ md5Hash = (body +:+ "==")%string.
Proof.
  apply (digest_sent_shape (Client.document Mock.client) "kb_1" 1%positive "report.pdf"
           None Mock.stored_world (Mock.upload Mock.stored_world).1
           (Mock.upload Mock.stored_world).2
           (transfer_request (JStr "https://up.example/abc") Mock.pdf) Mock.stored).
  - apply surjective_pairing.
  - vm_compute. apply list_elem_of_further, list_elem_of_here.
Defined.

(** ** The request/response methods of the three API objects *)

Lemma request_run inst method url body headers w :
  request inst method url body headers w
  = (exchanged w
       (MkRequest method (defaults_baseURL inst) url (headers ∪ defaults_headers inst) body,
        network w (log w)
          (MkRequest method (defaults_baseURL inst) url (headers ∪ defaults_headers inst) body)),
     settle
       (network w (log w)
          (MkRequest method (defaults_baseURL inst) url (headers ∪ defaults_headers inst) body))).
Proof. reflexivity. Qed.

(** A method that awaits one request and returns [f response]. *)
Lemma passthrough_run {A} inst method url body (f : Response -> A) w :
  (response <- request inst method url body ∅ ;; resolve (f response)) w
  = (exchanged w
       (MkRequest method (defaults_baseURL inst) url (∅ ∪ defaults_headers inst) body,
        network w (log w)
          (MkRequest method (defaults_baseURL inst) url (∅ ∪ defaults_headers inst) body)),
     match
       settle
         (network w (log w)
            (MkRequest method (defaults_baseURL inst) url (∅ ∪ defaults_headers inst) body))
     with
     | Fulfilled response => Fulfilled (f response)
     | Rejected e => Rejected e
     end).
Proof.
  unfold bind. rewrite request_run. unfold resolve.
  now destruct (settle _).
Qed.

Lemma void_run (m : Async unit) w :
  Calls.void m w
  = ((m w).1,
     match (m w).2 with
     | Fulfilled _ => Fulfilled JUndefined
     | Rejected e => Rejected e
     end).
Proof.
  unfold Calls.void, bind, resolve. destruct (m w) as [w' [[]|e]]; reflexivity.
Qed.

(** Every call is one request through the instance of its API object. *)
Lemma invoke_run client call w :
  exists inst method url,
    inst ∈ [ KnowledgeBases.axiosInstance (Client.knowledgeBase client);
             Documents.axiosInstance (Client.document client);
             Chat.axiosInstance (Client.chat client) ]
    /\ let q := MkRequest method (defaults_baseURL inst) (JStr url)
                  (∅ ∪ defaults_headers inst) (Calls.payload call) in
       Calls.invoke client call w
       = (exchanged w (q, network w (log w) q),
          match settle (network w (log w) q) with
          | Fulfilled response =>
              Fulfilled (if Calls.returns_nothing call then JUndefined else data response)
          | Rejected e => Rejected e
          end).
Proof.
  destruct call; cbn [Calls.invoke Calls.payload Calls.returns_nothing];
    rewrite ?void_run;
    unfold KnowledgeBaseMethods.createKnowledgeBase, KnowledgeBaseMethods.getKnowledgeBase,
      KnowledgeBaseMethods.updateKnowledgeBase, KnowledgeBaseMethods.deleteKnowledgeBase,
      KnowledgeBaseMethods.queryKnowledgeBases, DocumentMethods.updateDocument,
      DocumentMethods.deleteDocument, requestSignedFileUrl,
      DocumentMethods.createDocumentWithRawText, DocumentMethods.createDocumentFromUrl,
      ChatMethods.createChatThread, ChatMethods.getChatThread, ChatMethods.updateChatThread,
      ChatMethods.deleteChatThread, ChatMethods.getChatThreadResponse,
      post, Verbs.get, Verbs.patch, Verbs.delete;
    rewrite passthrough_run; cbn [fst snd];
    do 3 eexists;
    (split; [|cbv zeta; apply pair_equal_spec; split;
              [reflexivity | destruct (settle _); reflexivity]]);
    repeat (apply list_elem_of_here || apply list_elem_of_further).
Qed.

(** X7: each of these methods makes exactly one exchange and neither
    catches nor alters what the transport gives: it rejects with the
    transport's own error, fulfils with the response body as it is
    ([undefined] for the three deletions), and leaves the heap alone. *)
Theorem methods_settle_as_transport client call w :
  exists q r,
    events_since w (Calls.invoke client call w).1 = [(q, r)]
    /\ req_data q = Calls.payload call
    /\ heap (Calls.invoke client call w).1 = heap w
    /\ (forall e, settle r = Rejected e -> (Calls.invoke client call w).2 = Rejected e)
    /\ (forall response,
          settle r = Fulfilled response ->
          (Calls.invoke client call w).2
          = Fulfilled (if Calls.returns_nothing call then JUndefined else data response)).
Proof.
  destruct (invoke_run client call w) as (inst & method & url & _ & E).
  cbv zeta in E. rewrite E. cbn [fst snd].
  do 2 eexists. rewrite events_since_one.
  split; [reflexivity|]. split; [reflexivity|]. split; [reflexivity|].
  split; intros x Hx; now rewrite Hx.
Qed.

Lemma new_shares_instance username password baseURL inst :
  inst ∈ [ KnowledgeBases.axiosInstance
             (Client.knowledgeBase (Client.new username password baseURL));
           Documents.axiosInstance (Client.document (Client.new username password baseURL));
           Chat.axiosInstance (Client.chat (Client.new username password baseURL)) ] ->
  inst = Client.axiosInstance (Client.new username password baseURL).
Proof.
  intros H. repeat (apply elem_of_cons in H; destruct H as [H|H]; [exact H|]).
  now apply elem_of_nil in H.
Qed.

(** X8: on any of the three API objects of a client built by the
    constructor, every one of these methods hands axios one request
    configuration: its base URL is the client's (the default one when none
    is given) and its headers are the client's Basic credentials and the
    JSON [Accept] and [Content-Type], also when the request has no body.
    The headers the HTTP adapter adds when it sends the request are not
    part of this configuration. *)
Theorem methods_authenticated username password baseURL call w :
  exists q r,
    events_since w (Calls.invoke (Client.new username password baseURL) call w).1 = [(q, r)]
    /\ req_baseURL q = Some (default "https://api.superpowered.ai/v1"%string baseURL)
    /\ req_headers q
       = {[ "Authorization" :=
              ("Basic " +:+ Client.to_base64 (username +:+ ":" +:+ password))%string;
            "Accept" := "application/json"%string;
            "Content-Type" := "application/json"%string ]}.
Proof.
  destruct (invoke_run (Client.new username password baseURL) call w)
    as (inst & method & url & Hinst & E).
  apply new_shares_instance in Hinst. subst inst.
  cbv zeta in E. rewrite E. cbn [fst snd].
  do 2 eexists. rewrite events_since_one.
  split; [reflexivity|]. split; [reflexivity|].
  cbn [req_headers]. apply map_eq. intros k.
  unfold Client.new, create, axios. cbn [Client.axiosInstance defaults_headers].
  rewrite (left_id_L ∅ (∪)).
  rewrite lookup_union.
  destruct (decide (k = "Accept"%string)) as [->|Hk].
  - reflexivity.
  - rewrite (lookup_singleton_ne "Accept"%string k) by congruence.
    now destruct (_ !! k).
Qed.

(** ** Identifiers in paths *)

(** X9: identifiers are spliced into the path as they are: with a
    knowledge base identifier of the form [kb/documents/doc], the deletion
    and the update of a knowledge base are the deletion and the update of
    the document [doc] of [kb]. *)
Theorem knowledge_base_path_reaches_document
    username password baseURL knowledgeBaseId documentId data w :
  KnowledgeBaseMethods.deleteKnowledgeBase
    (Client.knowledgeBase (Client.new username password baseURL))
    (knowledgeBaseId +:+ "/documents/" +:+ documentId) w
  = DocumentMethods.deleteDocument
      (Client.document (Client.new username password baseURL))
      knowledgeBaseId documentId w
  /\ KnowledgeBaseMethods.updateKnowledgeBase
       (Client.knowledgeBase (Client.new username password baseURL))
       (knowledgeBaseId +:+ "/documents/" +:+ documentId) data w
     = DocumentMethods.updateDocument
         (Client.document (Client.new username password baseURL))
         knowledgeBaseId documentId data w.
Proof. split; reflexivity. Qed.

Lemma append_inv_head (p a b : string) : (p +:+ a = p +:+ b)%string -> a = b.
Proof.
  induction p as [|c p IH]; [exact id|].
  rewrite !append_cons. intros [= H]. auto.
Qed.

Lemma slash_free_split (a b x y : string) :
  Calls.slash_free a = true -> Calls.slash_free b = true ->
  (a +:+ String "/" x = b +:+ String "/" y)%string -> a = b /\ x = y.
Proof.
  revert b. induction a as [|c a IH]; intros [|c' b] Ha Hb;
    rewrite ?append_cons, ?append_empty; cbn [Calls.slash_free] in *.
  - intros [= ->]. auto.
  - intros [= <- _]. discriminate Hb.
  - intros [= -> _]. discriminate Ha.
  - apply andb_true_iff in Ha as [_ Ha]. apply andb_true_iff in Hb as [_ Hb].
    intros [= -> H]. destruct (IH b Ha Hb H) as [-> ->]. auto.
Qed.

Lemma deleteDocument_run this knowledgeBaseId documentId w :
  exists r,
    (DocumentMethods.deleteDocument this knowledgeBaseId documentId w).1
    = exchanged w
        (MkRequest DELETE (defaults_baseURL (axiosInstance this))
           (JStr ("/knowledge_bases/" +:+ knowledgeBaseId +:+ "/documents/" +:+ documentId))
           (∅ ∪ defaults_headers (axiosInstance this)) NoBody,
         r).
Proof.
  unfold DocumentMethods.deleteDocument, Verbs.delete.
  rewrite passthrough_run. eauto.
Qed.

(** X10: for knowledge base identifiers without a slash, the URL string
    [deleteDocument] builds and hands to axios tells the pairs of
    identifiers apart: calls for different pairs (knowledge base, document)
    are configured with different URL strings. This is about the string as
    the code builds it, before axios and the HTTP stack parse it. *)
Theorem deleteDocument_url_distinct
    this knowledgeBaseId1 documentId1 knowledgeBaseId2 documentId2 w :
  Calls.slash_free knowledgeBaseId1 = true ->
  Calls.slash_free knowledgeBaseId2 = true ->
  (knowledgeBaseId1, documentId1) <> (knowledgeBaseId2, documentId2) ->
  exists q1 r1 q2 r2,
    events_since w (DocumentMethods.deleteDocument this knowledgeBaseId1 documentId1 w).1
    = [(q1, r1)]
    /\ events_since w (DocumentMethods.deleteDocument this knowledgeBaseId2 documentId2 w).1
       = [(q2, r2)]
    /\ req_url q1 <> req_url q2.
Proof.
  intros H1 H2 Hne.
  destruct (deleteDocument_run this knowledgeBaseId1 documentId1 w) as [r1 E1].
  destruct (deleteDocument_run this knowledgeBaseId2 documentId2 w) as [r2 E2].
  rewrite E1, E2, !events_since_one.
  do 4 eexists. split; [reflexivity|]. split; [reflexivity|].
  cbn [req_url]. intros [= E]. apply append_inv_head in E.
  destruct (slash_free_split _ _ _ _ H1 H2 E) as [-> E'].
  apply (append_inv_head "documents/") in E'. now subst.
Qed.

Lemma deleteDocument_url_distinct_witness :
  exists q1 r1 q2 r2,
    events_since Mock.stored_world
      (DocumentMethods.deleteDocument (Client.document Mock.client) "kb_1" "doc_123"
         Mock.stored_world).1
    = [(q1, r1)]
    /\ events_since Mock.stored_world
         (DocumentMethods.deleteDocument (Client.document Mock.client) "kb_2" "doc_123"
            Mock.stored_world).1
       = [(q2, r2)]
    /\ req_url q1 <> req_url q2.
Proof.
  apply (deleteDocument_url_distinct (Client.document Mock.client)
           "kb_1" "doc_123" "kb_2" "doc_123" Mock.stored_world).
  - reflexivity.
  - reflexivity.
  - discriminate.
Defined.

(** ** The credentials *)

Lemma append_assoc (a b c : string) : ((a +:+ b) +:+ c = a +:+ b +:+ c)%string.
Proof.
  induction a as [|x a IH]; [reflexivity|].
  rewrite !append_cons. now rewrite IH.
Qed.

(** X11: the constructor joins user name and password with a colon and
    checks neither: a colon in the user name moves the boundary, and the
    two clients below are the same client with the same [Authorization]
    header. *)
Theorem credentials_colon_ambiguous username middle password baseURL :
  Client.new (username +:+ ":" +:+ middle) password baseURL
  = Client.new username (middle +:+ ":" +:+ password) baseURL.
Proof.
  unfold Client.new. now rewrite !append_assoc.
Qed.
